(** * LinkedIn analytics dashboard: a shallow embedding of [streamlit_app.py]

    The dashboard is one Python module: a sentence extractor, a loader that
    normalises an uploaded sheet, a metrics summariser, three chart builders
    and a [main] routine that filters, formats, searches and exports the
    table.  Each function below is the Rocq reading of the Python function of
    the same name.

    Conventions of the embedding.
    - A Python [str] is a [string]; every [ascii] stands for one code point
      in the range U+0000..U+00FF.
    - A Python float is an exact rational ([Q]); [None], [NaN] and [NaT]
      are the missing value.
    - A Python exception is a value of [exn], carried by the [py] monad. *)

From Stdlib Require Import Bool Arith ZArith QArith Qround Lia List Sorted.
From Stdlib Require Import Ascii String.
From Stdlib Require Import DecimalString.
Import ListNotations.

Local Open Scope list_scope.
Local Open Scope string_scope.
Local Open Scope nat_scope.

(** ** Python strings *)

Module Text.

(** [str.isspace] on one code point below U+0100: the C0 controls TAB..CR,
    FS..US, the space, NEL and the no-break space.  The [\s] class of [re]
    on a [str] pattern is the same set. *)
Definition is_space (c : ascii) : bool :=
  let n := nat_of_ascii c in
  ((9 <=? n) && (n <=? 13)) || ((28 <=? n) && (n <=? 32))
  || (n =? 133) || (n =? 160).

Fixpoint all_space (s : string) : bool :=
  match s with
  | EmptyString => true
  | String c r => is_space c && all_space r
  end.

Fixpoint lstrip (s : string) : string :=
  match s with
  | EmptyString => EmptyString
  | String c r => if is_space c then lstrip r else s
  end.

Fixpoint rstrip (s : string) : string :=
  match s with
  | EmptyString => EmptyString
  | String c r =>
      match rstrip r with
      | EmptyString => if is_space c then EmptyString else String c EmptyString
      | r' => String c r'
      end
  end.

(** [s.strip()] *)
Definition strip (s : string) : string := rstrip (lstrip s).

(** [s[:n]] *)
Definition slice_to (n : nat) (s : string) : string := substring 0 n s.

(** [c.lower()] on one code point below U+0100: the capitals A..Z and the
    accented capitals U+00C0..U+00DE, the multiplication sign excepted. *)
Definition lower_char (c : ascii) : ascii :=
  let n := nat_of_ascii c in
  if ((65 <=? n) && (n <=? 90))
     || ((192 <=? n) && (n <=? 222) && negb (n =? 215))
  then ascii_of_nat (n + 32) else c.

Fixpoint lower (s : string) : string :=
  match s with
  | EmptyString => EmptyString
  | String c r => String (lower_char c) (lower r)
  end.

(** [needle in hay] *)
Fixpoint contains (needle hay : string) : bool :=
  prefix needle hay ||
  match hay with
  | EmptyString => false
  | String _ r => contains needle r
  end.

End Text.

(** ** Sentence extractor *)

Module Extractor.
Import Text.

(** The character class [[.!?]] of the splitting pattern. *)
Definition is_sentence_end (c : ascii) : bool :=
  (c =? ".")%char || (c =? "!")%char || (c =? "?")%char.

Definition starts_with_space (s : string) : bool :=
  match s with
  | EmptyString => false
  | String c _ => is_space c
  end.

(** [re.split(r'[.!?]\s+', s)], as the first piece and the pieces after it.
    The scan goes left to right; a match is one sentence-ending character
    followed by its whole run of white space ([skipping] is set while that
    run is being consumed), and the pieces are what lies between matches. *)
Fixpoint re_split_from (skipping : bool) (s : string) : string * list string :=
  match s with
  | EmptyString => (EmptyString, [])
  | String c r =>
      if skipping && is_space c then re_split_from true r
      else if is_sentence_end c && starts_with_space r then
        (EmptyString, let (p, ps) := re_split_from true r in p :: ps)
      else
        let (p, ps) := re_split_from false r in (String c p, ps)
  end.

Definition re_split (s : string) : list string :=
  let (p, ps) := re_split_from false s in p :: ps.

(** [extract_first_sentence(text)]; [None] is a value [pd.isna] accepts. *)
Definition extract_first_sentence (text : option string) : string :=
  match text with
  | None => ""
  | Some s =>
      if (s =? "")%string then ""
      else
        match re_split s with
        | [] => ""  (* [re.split] never returns an empty list *)
        | s0 :: rest =>
            let first_sentence := strip s0 in
            let first_sentence :=
              match rest with
              | s1 :: _ =>
                  if String.length first_sentence <? 20
                  then s0 ++ ". " ++ s1
                  else first_sentence
              | [] => first_sentence
              end in
            if 100 <? String.length first_sentence
            then slice_to 97 first_sentence ++ "..."
            else first_sentence
        end
  end.

(** Some sentence-ending character is directly followed by white space. *)
Fixpoint has_boundary (s : string) : bool :=
  match s with
  | EmptyString => false
  | String c r => (is_sentence_end c && starts_with_space r) || has_boundary r
  end.

End Extractor.

(** ** Python exceptions *)

Module Py.

Inductive exn : Type :=
| KeyError (msg : string)
| TypeError (msg : string)
| ValueError (msg : string)
| AttributeError (msg : string)
| ReError (msg : string)
| OtherError (msg : string).

(** [str(e)] *)
Definition exn_str (e : exn) : string :=
  match e with
  | KeyError m | TypeError m | ValueError m
  | AttributeError m | ReError m | OtherError m => m
  end.

(** A computation that returns a value or raises. *)
Inductive py (A : Type) : Type :=
| Ret (a : A)
| Raise (e : exn).

Arguments Ret {A} a.
Arguments Raise {A} e.

Definition bind {A B : Type} (m : py A) (k : A -> py B) : py B :=
  match m with
  | Ret a => k a
  | Raise e => Raise e
  end.

Fixpoint mapM {A B : Type} (f : A -> py B) (l : list A) : py (list B) :=
  match l with
  | [] => Ret []
  | a :: r =>
      bind (f a) (fun b => bind (mapM f r) (fun bs => Ret (b :: bs)))
  end.

Definition returns {A : Type} (m : py A) : bool :=
  match m with
  | Ret _ => true
  | Raise _ => false
  end.

End Py.

Notation "x <- m ;; k" := (Py.bind m (fun x => k))
  (at level 61, m at next level, right associativity).

(** ** Numbers and their renderings *)

Module Num.

(** A Python number: an [int], or a [float] read as an exact rational. *)
Inductive number : Type :=
| Int (z : Z)
| Float (q : Q).

(** A numeric scalar that may be [NaN]. *)
Definition scalar : Type := option number.
Definition NaN : scalar := None.

Definition number_value (n : number) : Q :=
  match n with
  | Int z => inject_Z z
  | Float q => q
  end.

(** [n * 100] *)
Definition times100 (n : number) : number :=
  match n with
  | Int z => Int (z * 100)
  | Float q => Float (q * 100)
  end.

Definition scalar_times100 (x : scalar) : scalar := option_map times100 x.

(** Rounding to the nearest integer, ties to the even one ([rint]). *)
Definition round_half_even (q : Q) : Z :=
  let f := Qfloor q in
  match (q - inject_Z f) ?= (1 # 2) with
  | Lt => f
  | Gt => (f + 1)%Z
  | Eq => if Z.even f then f else (f + 1)%Z
  end%Q.

(** [numpy.round(x, 2)] *)
Definition np_round2 (x : Q) : Q := Qmake (round_half_even (x * 100)) 100.

Definition digit (d : Z) : ascii := ascii_of_nat (48 + Z.to_nat d).

(** The decimal digits of a natural number. *)
Definition digits (n : Z) : string := NilZero.string_of_uint (N.to_uint (Z.to_N n)).

Definition sign (neg : bool) : string := if neg then "-" else "".

(** [str(z)] for an [int]. *)
Definition int_str (z : Z) : string := sign (z <? 0)%Z ++ digits (Z.abs z).

(** The digits after the decimal point of [r / d], for [0 <= r < d]: long
    division, stopping when the remainder is zero.  [fuel] bounds the number
    of digits, as the 17 significant digits of a double do. *)
Fixpoint frac_digits (fuel : nat) (r d : Z) : string :=
  match fuel with
  | O => ""
  | S fuel' =>
      if (r =? 0)%Z then ""
      else String (digit (10 * r / d)) (frac_digits fuel' (10 * r mod d) d)
  end.

Definition or_zero (s : string) : string :=
  match s with
  | EmptyString => "0"
  | _ => s
  end.

(** [str(x)] for a [float] in positional notation: the integer part, a
    point, and the shortest fraction, one digit at least. *)
Definition float_str (q : Q) : string :=
  let a := Z.abs (Qnum q) in
  let d := Zpos (Qden q) in
  sign (Qnum q <? 0)%Z ++ digits (a / d) ++ "."
    ++ or_zero (frac_digits 17 (a mod d) d).

Definition number_str (n : number) : string :=
  match n with
  | Int z => int_str z
  | Float q => float_str q
  end.

(** Separators are inserted every three digits, counted from the right;
    the argument is the digit string reversed. *)
Fixpoint group_rev (l : list ascii) : list ascii :=
  match l with
  | a :: b :: c :: rest =>
      match rest with
      | [] => l
      | _ :: _ => a :: b :: c :: ","%char :: group_rev rest
      end
  | _ => l
  end.

Definition group_thousands (ds : string) : string :=
  string_of_list_ascii (rev (group_rev (rev (list_ascii_of_string ds)))).

(** [f"{n:,}"] *)
Definition format_comma (n : number) : string :=
  match n with
  | Int z => sign (z <? 0)%Z ++ group_thousands (digits (Z.abs z))
  | Float q =>
      let a := Z.abs (Qnum q) in
      let d := Zpos (Qden q) in
      sign (Qnum q <? 0)%Z ++ group_thousands (digits (a / d)) ++ "."
        ++ or_zero (frac_digits 17 (a mod d) d)
  end.

Definition two_digits (n : Z) : string :=
  String (digit (n / 10)) (String (digit (n mod 10)) "").

(** [f"{x:.2f}"] for a number. *)
Definition format_2f (n : number) : string :=
  let k := round_half_even (number_value n * 100) in
  sign (k <? 0)%Z ++ digits (Z.abs k / 100) ++ "." ++ two_digits (Z.abs k mod 100).

(** [f"{x:.2f}"] for a scalar; [NaN] prints as [nan]. *)
Definition scalar_format_2f (x : scalar) : string :=
  match x with
  | Some n => format_2f n
  | None => "nan"
  end.

End Num.

(** ** Tables *)

Module Frame.
Import Py Num.

(** A value of an object column: missing, a number, a text, or a timestamp
    (nanoseconds since the epoch). *)
Inductive cell : Type :=
| NA
| Number (n : number)
| Text (s : string)
| Stamp (ns : Z).

(** A column with its dtype.  [None] is [NaN] in a [float64] column and
    [NaT] in a [datetime64] column; an [int64] column has no missing
    value. *)
Inductive Series : Type :=
| ObjectSeries (l : list cell)
| Int64Series (l : list Z)
| Float64Series (l : list (option Q))
| DatetimeSeries (l : list (option Z)).

(** A table: its columns in order, each under its label.  Labels are looked
    up by first occurrence. *)
Definition DataFrame : Type := list (string * Series).

Definition series_len (s : Series) : nat :=
  match s with
  | ObjectSeries l => List.length l
  | Int64Series l => List.length l
  | Float64Series l => List.length l
  | DatetimeSeries l => List.length l
  end.

(** [len(df)] *)
Definition len (df : DataFrame) : nat :=
  match df with
  | [] => 0
  | (_, s) :: _ => series_len s
  end.

Fixpoint lookup (name : string) (df : DataFrame) : option Series :=
  match df with
  | [] => None
  | (n, s) :: rest => if (n =? name)%string then Some s else lookup name rest
  end.

(** [name in df.columns] *)
Definition has_column (name : string) (df : DataFrame) : bool :=
  match lookup name df with
  | Some _ => true
  | None => false
  end.

(** [df[name]] *)
Definition getitem (df : DataFrame) (name : string) : py Series :=
  match lookup name df with
  | Some s => Ret s
  | None => Raise (KeyError name)
  end.

(** [df[name] = s]: an existing column is replaced in place, a new one is
    appended. *)
Fixpoint setitem (df : DataFrame) (name : string) (s : Series) : DataFrame :=
  match df with
  | [] => [(name, s)]
  | (n, old) :: rest =>
      if (n =? name)%string then (n, s) :: rest
      else (n, old) :: setitem rest name s
  end.

(** [df[[n1, n2, ...]]] *)
Definition select (df : DataFrame) (names : list string) : py DataFrame :=
  mapM (fun n => s <- getitem df n ;; Ret (n, s)) names.

(** Boolean indexing keeps the positions where the mask is true. *)
Fixpoint mask_list {A : Type} (mask : list bool) (l : list A) : list A :=
  match mask, l with
  | b :: mask', a :: l' =>
      if b then a :: mask_list mask' l' else mask_list mask' l'
  | _, _ => []
  end.

Definition series_mask (mask : list bool) (s : Series) : Series :=
  match s with
  | ObjectSeries l => ObjectSeries (mask_list mask l)
  | Int64Series l => Int64Series (mask_list mask l)
  | Float64Series l => Float64Series (mask_list mask l)
  | DatetimeSeries l => DatetimeSeries (mask_list mask l)
  end.

(** [df[mask]] *)
Definition frame_mask (mask : list bool) (df : DataFrame) : DataFrame :=
  map (fun c => (fst c, series_mask mask (snd c))) df.

(** Positional selection of rows, [df.iloc[positions]]. *)
Definition take_list {A : Type} (positions : list nat) (l : list A) : list A :=
  flat_map (fun i => match nth_error l i with
                     | Some a => [a]
                     | None => []
                     end) positions.

Definition series_take (positions : list nat) (s : Series) : Series :=
  match s with
  | ObjectSeries l => ObjectSeries (take_list positions l)
  | Int64Series l => Int64Series (take_list positions l)
  | Float64Series l => Float64Series (take_list positions l)
  | DatetimeSeries l => DatetimeSeries (take_list positions l)
  end.

Definition frame_take (positions : list nat) (df : DataFrame) : DataFrame :=
  map (fun c => (fst c, series_take positions (snd c))) df.

(** *** Reductions

    pandas reduces a float column with the missing cells masked: they are
    filled with zero for the sum and left out of the count. *)

Definition fill0 (c : option Q) : Q :=
  match c with
  | Some q => q
  | None => 0
  end.

Definition nansum (l : list (option Q)) : Q :=
  fold_right Qplus 0%Q (map fill0 l).

Definition notna {A : Type} (c : option A) : bool :=
  match c with
  | Some _ => true
  | None => false
  end.

Definition count_valid (l : list (option Q)) : nat :=
  List.length (filter notna l).

Definition nanmean (l : list (option Q)) : scalar :=
  let count := count_valid l in
  if count =? 0 then NaN
  else Some (Float (nansum l / inject_Z (Z.of_nat count))).

(** The numbers of an object column; a text or a timestamp among them makes
    the reduction raise. *)
Definition object_values (l : list cell) : py (list (option Q)) :=
  mapM (fun c => match c with
                 | NA => Ret None
                 | Number n => Ret (Some (number_value n))
                 | Text _ | Stamp _ =>
                     Raise (TypeError "unsupported operand type(s)")
                 end) l.

Definition int_values (l : list Z) : list (option Q) :=
  map (fun z => Some (inject_Z z)) l.

(** [s.mean()] *)
Definition mean (s : Series) : py scalar :=
  match s with
  | Float64Series l => Ret (nanmean l)
  | Int64Series l => Ret (nanmean (int_values l))
  | ObjectSeries l => vs <- object_values l ;; Ret (nanmean vs)
  | DatetimeSeries _ =>
      Raise (TypeError "unsupported operand type(s) for *: 'Timestamp' and 'int'")
  end.

(** [s.sum()] *)
Definition sum (s : Series) : py number :=
  match s with
  | Float64Series l => Ret (Float (nansum l))
  | Int64Series l => Ret (Int (fold_right Z.add 0%Z l))
  | ObjectSeries l => vs <- object_values l ;; Ret (Float (nansum vs))
  | DatetimeSeries _ =>
      Raise (TypeError "datetime64 type does not support operation 'sum'")
  end.

(** [s * 100] on a numeric column. *)
Definition series_times100 (s : Series) : py Series :=
  match s with
  | Float64Series l => Ret (Float64Series (map (option_map (fun q => q * 100)%Q) l))
  | Int64Series l => Ret (Int64Series (map (fun z => z * 100)%Z l))
  | ObjectSeries l =>
      vs <- object_values l ;;
      Ret (Float64Series (map (option_map (fun q => q * 100)%Q) vs))
  | DatetimeSeries _ =>
      Raise (TypeError "unsupported operand type(s) for *: 'DatetimeArray' and 'int'")
  end.

(** The column has a numeric dtype. *)
Definition is_numeric (s : Series) : bool :=
  match s with
  | Int64Series _ | Float64Series _ => true
  | ObjectSeries _ | DatetimeSeries _ => false
  end.

(** The values of a numeric column, as numbers that may be missing. *)
Definition numeric_values (s : Series) : list (option Q) :=
  match s with
  | Float64Series l => l
  | Int64Series l => int_values l
  | ObjectSeries _ | DatetimeSeries _ => []
  end.

End Frame.

(** ** Data loader *)

Module Loader.
Import Py Num Text Frame Extractor.

(** What the dashboard takes from its libraries without the code being in
    this module: the number and date parsers applied to a text cell, the
    conversion of a float to a timestamp, the text of a timestamp, and the
    regular-expression engine on patterns that use operators.
    - [parse_number s] is [None] when [s] is not a number.
    - [parse_datetime s] is [None] when [s] is not recognised as a date,
      [Some None] when it reads as [NaT].
    - [datetime_of_float q] is [None] when the value is out of bounds.
    - [re_search_ignorecase p t] tells whether [re.search(p, t,
      re.IGNORECASE)] finds a match, or raises as [re.compile(p)] does. *)
Class Pandas : Type := {
  parse_number : string -> option number;
  parse_datetime : string -> option (option Z);
  datetime_of_float : Q -> option Z;
  stamp_str : Z -> string;
  re_search_ignorecase : string -> string -> py bool
}.

Section WithPandas.
Context {pandas : Pandas}.

(** The value [NaT] has as an [int64]. *)
Definition iNaT : Z := (- 2 ^ 63)%Z.

Definition coerce_cell (c : cell) : option number :=
  match c with
  | NA => None
  | Number n => Some n
  | Text s => parse_number s
  | Stamp _ => None
  end.

Definition as_int (x : option number) : option Z :=
  match x with
  | Some (Int z) => Some z
  | _ => None
  end.

Fixpoint all_ints (l : list (option number)) : option (list Z) :=
  match l with
  | [] => Some []
  | x :: r =>
      match as_int x, all_ints r with
      | Some z, Some zs => Some (z :: zs)
      | _, _ => None
      end
  end.

(** [pd.to_numeric(s, errors='coerce')]: a cell that does not convert
    becomes [NaN]; the result is [int64] when every cell is an integer and
    [float64] otherwise. *)
Definition to_numeric_coerce (s : Series) : Series :=
  match s with
  | Int64Series _ | Float64Series _ => s
  | DatetimeSeries l =>
      Int64Series (map (fun t => match t with Some ns => ns | None => iNaT end) l)
  | ObjectSeries l =>
      let vals := map coerce_cell l in
      match all_ints vals with
      | Some zs => Int64Series zs
      | None => Float64Series (map (option_map number_value) vals)
      end
  end.

Definition float_to_datetime (c : option Q) : py (option Z) :=
  match c with
  | None => Ret None
  | Some q =>
      match datetime_of_float q with
      | Some ns => Ret (Some ns)
      | None => Raise (ValueError "Out of bounds nanosecond timestamp")
      end
  end.

Definition cell_to_datetime (c : cell) : py (option Z) :=
  match c with
  | NA => Ret None
  | Stamp ns => Ret (Some ns)
  | Number (Int z) => Ret (Some z)
  | Number (Float q) => float_to_datetime (Some q)
  | Text s =>
      match parse_datetime s with
      | Some t => Ret t
      | None => Raise (ValueError ("Unknown datetime string format, unable to parse: " ++ s))
      end
  end.

(** [pd.to_datetime(s)], with the default [errors='raise']: one cell that
    does not convert makes the whole call raise. *)
Definition to_datetime (s : Series) : py Series :=
  match s with
  | DatetimeSeries _ => Ret s
  | Int64Series l => Ret (DatetimeSeries (map Some l))
  | Float64Series l => ts <- mapM float_to_datetime l ;; Ret (DatetimeSeries ts)
  | ObjectSeries l => ts <- mapM cell_to_datetime l ;; Ret (DatetimeSeries ts)
  end.

(** The argument [Series.apply] hands to [extract_first_sentence], with
    [str] already applied to a value that is not a text. *)
Definition cell_text (c : cell) : option string :=
  match c with
  | NA => None
  | Text s => Some s
  | Number n => Some (number_str n)
  | Stamp ns => Some (stamp_str ns)
  end.

Definition series_texts (s : Series) : list (option string) :=
  match s with
  | ObjectSeries l => map cell_text l
  | Int64Series l => map (fun z => Some (int_str z)) l
  | Float64Series l => map (option_map float_str) l
  | DatetimeSeries l => map (option_map stamp_str) l
  end.

(** [s.apply(extract_first_sentence)] *)
Definition apply_extract (s : Series) : Series :=
  ObjectSeries (map (fun t => Text (extract_first_sentence t)) (series_texts s)).

(** [df.columns = [str(col).lower().strip() for col in df.columns]] *)
Definition normalise_columns (df : DataFrame) : DataFrame :=
  map (fun c => (strip (lower (fst c)), snd c)) df.

(** [df[name] = f(df[name])] under [if name in df.columns]. *)
Definition convert_if_present (name : string) (f : Series -> py Series)
  (df : DataFrame) : py DataFrame :=
  match lookup name df with
  | Some s => s' <- f s ;; Ret (setitem df name s')
  | None => Ret df
  end.

(** What the loader hands back: the table, or [None] after [st.error] has
    shown a message. *)
Inductive loaded : Type :=
| Table (df : DataFrame)
| NoTable (message : string).

(** The body of the [try] block; [uploaded_file] is what
    [pd.read_excel(uploaded_file, sheet_name='All posts', header=1)] yields:
    the sheet as a table with its raw labels, or the exception it raises. *)
Definition load_body (uploaded_file : py DataFrame) : py loaded :=
  df <- uploaded_file ;;
  let df := normalise_columns df in
  if negb (has_column "post title" df) then
    Ret (NoTable "Error: 'Post title' column not found. Please ensure your Excel file has this column.")
  else
    title <- getitem df "post title" ;;
    let df := setitem df "post title (first sentence)" (apply_extract title) in
    df <- convert_if_present "created date" to_datetime df ;;
    df <- convert_if_present "engagement rate"
            (fun s => Ret (to_numeric_coerce s)) df ;;
    df <- convert_if_present "click through rate (ctr)"
            (fun s => Ret (to_numeric_coerce s)) df ;;
    df <- convert_if_present "impressions"
            (fun s => Ret (to_numeric_coerce s)) df ;;
    Ret (Table df).

(** [load_and_process_data(uploaded_file)] *)
Definition load_and_process_data (uploaded_file : py DataFrame) : loaded :=
  match load_body uploaded_file with
  | Ret r => r
  | Raise e => NoTable ("Error loading data: " ++ exn_str e)
  end.

(** The table the caller receives, [None] when there is none. *)
Definition loaded_table (r : loaded) : option DataFrame :=
  match r with
  | Table df => Some df
  | NoTable _ => None
  end.

End WithPandas.
End Loader.

(** ** Metrics summariser *)

Module Summary.
Import Py Num Frame.

(** The four locals of [create_summary_metrics]. *)
Record metrics : Type := {
  total_posts : nat;
  avg_engagement : scalar;
  avg_ctr : scalar;
  total_impressions : number
}.

(** [df[name].mean() * 100 if name in df.columns else 0] *)
Definition average_percent (name : string) (df : DataFrame) : py scalar :=
  if has_column name df then
    s <- getitem df name ;;
    m <- mean s ;;
    Ret (scalar_times100 m)
  else Ret (Some (Int 0)).

(** [df['impressions'].sum() if 'impressions' in df.columns else 0] *)
Definition impressions_total (df : DataFrame) : py number :=
  if has_column "impressions" df then
    s <- getitem df "impressions" ;;
    sum s
  else Ret (Int 0).

Definition summary_values (df : DataFrame) : py metrics :=
  let total_posts := len df in
  avg_engagement <- average_percent "engagement rate" df ;;
  avg_ctr <- average_percent "click through rate (ctr)" df ;;
  total_impressions <- impressions_total df ;;
  Ret {| total_posts := total_posts;
         avg_engagement := avg_engagement;
         avg_ctr := avg_ctr;
         total_impressions := total_impressions |}.

(** One [st.metric] card: its label (without the pictograph) and value. *)
Definition card : Type := (string * string)%type.

Definition metric_cards (m : metrics) : list card :=
  [ ("Total Posts", format_comma (Int (Z.of_nat (total_posts m))));
    ("Total Impressions", format_comma (total_impressions m));
    ("Avg Engagement Rate", scalar_format_2f (avg_engagement m) ++ "%");
    ("Avg Click-Through Rate", scalar_format_2f (avg_ctr m) ++ "%") ].

(** [create_summary_metrics(df)]: the cards it shows. *)
Definition create_summary_metrics (df : DataFrame) : py (list card) :=
  m <- summary_values df ;;
  Ret (metric_cards m).

End Summary.

(** ** Chart builders *)

Module Charts.
Import Py Num Text Frame.

(** A chart specification: the data handed to the plotting library and how
    it is encoded.
    - [LineFigure]: one [go.Scatter] trace in [lines+markers] mode.
    - [BarFigure]: [px.bar] with horizontal bars, [x] the value column and
      [y] the category column, the layout asking for the categories in
      [total ascending] order.
    - [ScatterFigure]: [px.scatter] with [x] a column and [y] a series. *)
Inductive Figure : Type :=
| LineFigure (title : string) (x : list Z) (y : Series)
| BarFigure (title : string) (data : DataFrame) (x y : string)
    (hover_data : list string)
| ScatterFigure (title : string) (data : DataFrame) (x : string) (y : Series)
    (hover_data : list string).

Definition day_ns : Z := 86400000000000.

(** [Timestamp.date()], as the number of days since the epoch. *)
Definition date_of (ns : Z) : Z := (ns / day_ns)%Z.

(** [s.dt.date] *)
Definition dt_date (s : Series) : py (list (option Z)) :=
  match s with
  | DatetimeSeries l => Ret (map (option_map date_of) l)
  | ObjectSeries _ | Int64Series _ | Float64Series _ =>
      Raise (AttributeError "Can only use .dt accessor with datetimelike values")
  end.

(** *** [groupby(...).agg({...})] *)

(** The groups are kept sorted by key; a row joins the group of its key. *)
Fixpoint add_to_group (key : Z) (i : nat) (gs : list (Z * list nat))
  : list (Z * list nat) :=
  match gs with
  | [] => [(key, [i])]
  | (k, ps) :: rest =>
      if (key <? k)%Z then (key, [i]) :: gs
      else if (key =? k)%Z then (k, (ps ++ [i])%list) :: rest
      else (k, ps) :: add_to_group key i rest
  end.

(** Rows whose key is missing belong to no group. *)
Fixpoint group_positions (i : nat) (keys : list (option Z))
  (gs : list (Z * list nat)) : list (Z * list nat) :=
  match keys with
  | [] => gs
  | k :: r =>
      group_positions (S i) r
        (match k with
         | Some key => add_to_group key i gs
         | None => gs
         end)
  end.

Inductive aggfunc : Type := AggMean | AggSum.

Definition agg_series (f : aggfunc) (groups : list (list nat)) (s : Series)
  : py Series :=
  match f with
  | AggMean =>
      ms <- mapM (fun ps => mean (series_take ps s)) groups ;;
      Ret (Float64Series (map (option_map number_value) ms))
  | AggSum =>
      ts <- mapM (fun ps => sum (series_take ps s)) groups ;;
      Ret (Float64Series (map (fun t => Some (number_value t)) ts))
  end.

(** [df.groupby(keys).agg(spec).reset_index()]: the sorted keys and one
    aggregated column for each entry of [spec].  A column of [spec] that
    the table lacks is a [KeyError]; its message names the first such
    column here. *)
Definition groupby_agg (df : DataFrame) (keys : list (option Z))
  (spec : list (string * aggfunc)) : py (list Z * DataFrame) :=
  match filter (fun e => negb (has_column (fst e) df)) spec with
  | absent :: _ =>
      Raise (KeyError ("Column(s) ['" ++ fst absent ++ "'] do not exist"))
  | [] =>
      let groups := group_positions 0 keys [] in
      cols <- mapM (fun e =>
                s <- getitem df (fst e) ;;
                a <- agg_series (snd e) (map snd groups) s ;;
                Ret (fst e, a)) spec ;;
      Ret (map fst groups, cols)
  end.

(** [create_engagement_trend_chart(df)]; [Ret None] is the [None] it
    returns. *)
Definition create_engagement_trend_chart (df : DataFrame) : py (option Figure) :=
  if negb (has_column "created date" df) then Ret None
  else
    created <- getitem df "created date" ;;
    keys <- dt_date created ;;
    daily_stats <- groupby_agg df keys
                     [ ("engagement rate", AggMean);
                       ("impressions", AggSum);
                       ("click through rate (ctr)", AggMean) ] ;;
    rate <- getitem (snd daily_stats) "engagement rate" ;;
    y <- series_times100 rate ;;
    Ret (Some (LineFigure "Engagement Rate Trend Over Time" (fst daily_stats) y)).

(** *** [df.nlargest(n, column)] *)

(** The values [nlargest] orders by. *)
Definition order_values (s : Series) : list (option Q) :=
  match s with
  | Float64Series l => l
  | Int64Series l => int_values l
  | DatetimeSeries l => map (option_map inject_Z) l
  | ObjectSeries _ => []
  end.

(** Positions with a value, and positions without, from position [i] on. *)
Fixpoint valid_positions (i : nat) (l : list (option Q)) : list (nat * Q) :=
  match l with
  | [] => []
  | Some q :: r => (i, q) :: valid_positions (S i) r
  | None :: r => valid_positions (S i) r
  end.

Fixpoint nan_positions (i : nat) (l : list (option Q)) : list nat :=
  match l with
  | [] => []
  | Some _ :: r => nan_positions (S i) r
  | None :: r => i :: nan_positions (S i) r
  end.

(** Insertion into a list in descending order of value, before the first
    element that is not larger: among equal values the earlier row stays
    first ([keep='first']). *)
Fixpoint insert_desc (x : nat * Q) (l : list (nat * Q)) : list (nat * Q) :=
  match l with
  | [] => [x]
  | y :: r =>
      if Qle_bool (snd y) (snd x) then x :: l else y :: insert_desc x r
  end.

Definition sort_desc (l : list (nat * Q)) : list (nat * Q) :=
  fold_right insert_desc [] l.

(** The rows with a value, largest first, then the rows without one, cut
    to [n] rows. *)
Definition nlargest_positions (n : nat) (vals : list (option Q)) : list nat :=
  firstn n (map fst (sort_desc (valid_positions 0 vals))
            ++ nan_positions 0 vals)%list.

Definition nlargest (n : nat) (column : string) (df : DataFrame) : py DataFrame :=
  s <- getitem df column ;;
  match s with
  | ObjectSeries _ =>
      Raise (TypeError ("Column '" ++ column
                        ++ "' has dtype object, cannot use method 'nlargest' with this dtype"))
  | Int64Series _ | Float64Series _ | DatetimeSeries _ =>
      Ret (frame_take (nlargest_positions n (order_values s)) df)
  end.

(** *** Plotly Express *)

Fixpoint distinct (l : list string) : bool :=
  match l with
  | [] => true
  | a :: r => negb (existsb (String.eqb a) r) && distinct r
  end.

(** Plotly Express wants every column it is given by name to be a column
    of the data, and the labels of the data to be distinct. *)
Definition px_columns (data : DataFrame) (names : list string) : py unit :=
  if negb (distinct (map fst data)) then
    Raise (ValueError "Expected unique column names")
  else
    match filter (fun n => negb (has_column n data)) names with
    | absent :: _ =>
        Raise (ValueError ("Value of argument is not the name of a column in 'data_frame': "
                           ++ absent))
    | [] => Ret tt
    end.

Definition is_upper (c : ascii) : bool :=
  let n := nat_of_ascii c in (65 <=? n) && (n <=? 90).

Definition is_lower (c : ascii) : bool :=
  let n := nat_of_ascii c in (97 <=? n) && (n <=? 122).

Definition upper_char (c : ascii) : ascii :=
  if is_lower c then ascii_of_nat (nat_of_ascii c - 32) else c.

(** [s.title()] on the ASCII letters: a letter after a letter is lowered,
    any other letter is raised. *)
Fixpoint title_from (after_letter : bool) (s : string) : string :=
  match s with
  | EmptyString => EmptyString
  | String c r =>
      String (if after_letter then lower_char c else upper_char c)
             (title_from (is_upper c || is_lower c) r)
  end.

Definition title_case (s : string) : string := title_from false s.

(** [s.replace('_', ' ')] *)
Fixpoint underscores_to_spaces (s : string) : string :=
  match s with
  | EmptyString => EmptyString
  | String c r =>
      String (if (c =? "_")%char then " "%char else c) (underscores_to_spaces r)
  end.

Definition is_rate_metric (metric : string) : bool :=
  (metric =? "engagement rate")%string
  || (metric =? "click through rate (ctr)")%string.

(** [create_top_posts_chart(df, metric, top_n)] *)
Definition create_top_posts_chart (df : DataFrame) (metric : string)
  (top_n : nat) : py (option Figure) :=
  if negb (has_column metric df) then Ret None
  else
    largest <- nlargest top_n metric df ;;
    top_posts <- select largest ["post title (first sentence)"; metric; "impressions"] ;;
    shown <- (if is_rate_metric metric then
                s <- getitem top_posts metric ;;
                percent <- series_times100 s ;;
                Ret (setitem top_posts (metric ++ " (%)") percent,
                     metric ++ " (%)")
              else Ret (top_posts, metric)) ;;
    _ <- px_columns (fst shown)
           [snd shown; "post title (first sentence)"; "impressions"] ;;
    Ret (Some (BarFigure
                 ("Top " ++ int_str (Z.of_nat top_n) ++ " Posts by "
                  ++ title_case (underscores_to_spaces metric))
                 (fst shown) (snd shown) "post title (first sentence)"
                 ["impressions"])).

Definition default_top_n : nat := 10.

(** [create_scatter_plot(df)] *)
Definition create_scatter_plot (df : DataFrame) : py (option Figure) :=
  if negb (has_column "impressions" df) || negb (has_column "engagement rate" df)
  then Ret None
  else
    rate <- getitem df "engagement rate" ;;
    y <- series_times100 rate ;;
    _ <- px_columns df
           ["impressions"; "post title (first sentence)";
            "click through rate (ctr)"] ;;
    Ret (Some (ScatterFigure "Impressions vs Engagement Rate" df "impressions" y
                 ["post title (first sentence)"; "click through rate (ctr)"])).

(** *** How a bar figure is laid out

    With [categoryorder = 'total ascending'] the categories of a bar chart
    appear by ascending total of their bars; categories with equal totals
    keep the order in which they first occur in the data.  A bar without
    a value adds nothing to its category. *)









Definition figure_data (fig : Figure) : DataFrame :=
  match fig with
  | BarFigure _ data _ _ _ => data
  | ScatterFigure _ data _ _ _ => data
  | LineFigure _ _ _ => []
  end.

End Charts.

(** ** The page: filters, table, search and export *)

Module Dashboard.
Import Py Num Text Frame Extractor Loader Summary Charts.

(** *** What the page shows *)

Inductive element : Type :=
| Info (message : string)
| Error (message : string)
| Success (message : string)
| Metrics (cards : list card)
| PlotlyChart (fig : Figure)
| Dataframe (table : DataFrame)
| DownloadButton (label data file_name : string).

(** A script run: the elements shown so far, and the value reached or the
    exception that stopped the run.  Static headings are left out. *)
Definition ui (A : Type) : Type := (list element * py A)%type.

Definition ui_bind {A B : Type} (m : ui A) (k : A -> ui B) : ui B :=
  match snd m with
  | Ret a => ((fst m ++ fst (k a))%list, snd (k a))
  | Raise e => (fst m, Raise e)
  end.

Definition emit (e : element) : ui unit := ([e], Ret tt).
Definition lift {A : Type} (m : py A) : ui A := ([], m).
Definition done : ui unit := ([], Ret tt).

End Dashboard.

Notation "x <~ m ;; k" := (Dashboard.ui_bind m (fun x => k))
  (at level 61, m at next level, right associativity).
Notation "m ;;; k" := (Dashboard.ui_bind m (fun _ => k))
  (at level 61, right associativity).

Module Page.
Import Py Num Text Frame Extractor Loader Summary Charts Dashboard.

(** What the widgets hand to one run of the script: the uploaded file
    (as [pd.read_excel] reads it), the post type chosen in the side bar,
    the dates picked in the date input, the text of the search box, and the
    clock, already formatted as [%Y%m%d_%H%M%S]. *)
Record session : Type := {
  uploaded_file : option (py DataFrame);
  selected_post_type : cell;
  date_range : list Z;
  search_term : string;
  now : string
}.

(** The values of a column as Python objects. *)
Definition series_cells (s : Series) : list cell :=
  match s with
  | ObjectSeries l => l
  | Int64Series l => map (fun z => Number (Int z)) l
  | Float64Series l =>
      map (fun c => match c with Some q => Number (Float q) | None => NA end) l
  | DatetimeSeries l =>
      map (fun c => match c with Some ns => Stamp ns | None => NA end) l
  end.

(** [a == b] on two values; a missing value equals nothing. *)
Definition cell_eqb (a b : cell) : bool :=
  match a, b with
  | Number m, Number n => Qeq_bool (number_value m) (number_value n)
  | Text s, Text t => (s =? t)%string
  | Stamp m, Stamp n => (m =? n)%Z
  | _, _ => false
  end.

(** The post type filter of the side bar. *)
Definition filter_post_type (selected : cell) (df : DataFrame) : py DataFrame :=
  if has_column "post type" df then
    if negb (cell_eqb selected (Text "All")) then
      s <- getitem df "post type" ;;
      Ret (frame_mask (map (fun c => cell_eqb c selected) (series_cells s)) df)
    else Ret df
  else Ret df.

Definition in_range (start_date end_date : Z) (d : option Z) : bool :=
  match d with
  | Some day => (start_date <=? day)%Z && (day <=? end_date)%Z
  | None => false
  end.

(** The date filter of the side bar.  The bounds offered by the widget are
    read off the column with [.min().date()] and [.max().date()]; a
    selection of two dates filters the table, bounds included. *)
Definition filter_date_range (range : list Z) (df : DataFrame) : py DataFrame :=
  if has_column "created date" df then
    created <- getitem df "created date" ;;
    days <- dt_date created ;;
    match range with
    | [start_date; end_date] =>
        Ret (frame_mask (map (in_range start_date end_date) days) df)
    | _ => Ret df
    end
  else Ret df.

Definition display_columns : list string :=
  [ "post title (first sentence)"; "impressions"; "engagement rate";
    "click through rate (ctr)" ].

(** [l.insert(i, x)] *)
Definition insert_at {A : Type} (i : nat) (x : A) (l : list A) : list A :=
  (firstn i l ++ x :: skipn i l)%list.

Definition available_columns (df : DataFrame) : list string :=
  let cols := filter (fun c => has_column c df) display_columns in
  let cols := if has_column "created date" df
              then insert_at 1 "created date" cols else cols in
  if has_column "post type" df then (cols ++ ["post type"])%list else cols.

(** [s.round(2)] *)
Definition series_round2 (s : Series) : py Series :=
  match s with
  | Float64Series l => Ret (Float64Series (map (option_map np_round2) l))
  | Int64Series _ => Ret s
  | ObjectSeries _ | DatetimeSeries _ =>
      Raise (TypeError "loop of ufunc does not support argument 0")
  end.

(** [s.astype(str) + '%'], for the numeric column [round] hands over: its
    values are numbers or missing. *)
Definition series_percent_text (s : Series) : Series :=
  ObjectSeries
    (map (fun c => Text (match c with
                         | NA => "nan"
                         | Number n => number_str n
                         | Text t => t
                         | Stamp _ => ""
                         end ++ "%")) (series_cells s)).

(** [(s * 100).round(2).astype(str) + '%'] *)
Definition format_rate (s : Series) : py Series :=
  p <- series_times100 s ;;
  r <- series_round2 p ;;
  Ret (series_percent_text r).

(** [f"{x:,}" if pd.notna(x) else "0"] *)
Definition format_impression (x : cell) : py string :=
  match x with
  | NA => Ret "0"
  | Number n => Ret (format_comma n)
  | Text _ => Raise (ValueError "Cannot specify ',' with 's'.")
  | Stamp _ => Ret ","
  end.

Definition format_impressions (s : Series) : py Series :=
  ts <- mapM format_impression (series_cells s) ;;
  Ret (ObjectSeries (map Text ts)).

Definition format_if_present (name : string) (f : Series -> py Series)
  (df : DataFrame) : py DataFrame :=
  match lookup name df with
  | Some s => s' <- f s ;; Ret (setitem df name s')
  | None => Ret df
  end.

(** The formatted copy of the table that is put on the page. *)
Definition format_display (df : DataFrame) : py DataFrame :=
  display_df <- select df (available_columns df) ;;
  display_df <- format_if_present "engagement rate" format_rate display_df ;;
  display_df <- format_if_present "click through rate (ctr)" format_rate display_df ;;
  format_if_present "impressions" format_impressions display_df.

Section WithPandas.
Context {pandas : Pandas}.

(** *** Search *)

(** The characters with a meaning of their own in a pattern, the dot
    apart. *)
Definition is_operator (c : ascii) : bool :=
  existsb (Ascii.eqb c)
    (list_ascii_of_string "\^$*+?{}[]()|").

Fixpoint is_plain_pattern (p : string) : bool :=
  match p with
  | EmptyString => true
  | String c r => negb (is_operator c) && is_plain_pattern r
  end.

Definition newline : ascii := ascii_of_nat 10.

(** One pattern character against one text character, ignoring case: the
    dot stands for any character but the newline. *)
Definition atom_matches (p c : ascii) : bool :=
  if (p =? ".")%char then negb (c =? newline)%char
  else (lower_char p =? lower_char c)%char.

Fixpoint match_here (p t : string) : bool :=
  match p, t with
  | EmptyString, _ => true
  | String _ _, EmptyString => false
  | String pc pr, String tc tr => atom_matches pc tc && match_here pr tr
  end.

Fixpoint search_plain (p t : string) : bool :=
  match_here p t ||
  match t with
  | EmptyString => false
  | String _ r => search_plain p r
  end.

(** [re.search(pattern, text, re.IGNORECASE)] finds a match: worked out
    here for a pattern of plain characters and dots, left to the engine for
    a pattern with operators. *)
Definition regex_contains (pattern text : string) : py bool :=
  if is_plain_pattern pattern then Ret (search_plain pattern text)
  else re_search_ignorecase pattern text.

(** [s.str.contains(pat, case=False, na=False)]: [pat] is a regular
    expression, compiled once; a value that is not a text gives [False]. *)
Definition str_contains (s : Series) (pat : string) : py (list bool) :=
  match s with
  | ObjectSeries l =>
      _ <- regex_contains pat "" ;;
      mapM (fun c => match c with
                     | Text t => regex_contains pat t
                     | NA | Number _ | Stamp _ => Ret false
                     end) l
  | Int64Series _ | Float64Series _ | DatetimeSeries _ =>
      Raise (AttributeError "Can only use .str accessor with string values!")
  end.

(** The search box: an empty term leaves the table as it is. *)
Definition search (term : string) (display_df : DataFrame) : py DataFrame :=
  if (term =? "")%string then Ret display_df
  else
    titles <- getitem display_df "post title (first sentence)" ;;
    mask <- str_contains titles term ;;
    Ret (frame_mask mask display_df).

(** *** Export *)

Definition quote : ascii := ascii_of_nat 34.

Definition needs_quoting (s : string) : bool :=
  existsb (fun c => (c =? ",")%char || (c =? quote)%char
                    || (c =? newline)%char || (c =? ascii_of_nat 13)%char)
          (list_ascii_of_string s).

Fixpoint double_quotes (s : string) : string :=
  match s with
  | EmptyString => EmptyString
  | String c r =>
      if (c =? quote)%char then String quote (String quote (double_quotes r))
      else String c (double_quotes r)
  end.

(** One field, quoted only when it must be. *)
Definition csv_field (s : string) : string :=
  if needs_quoting s
  then String quote (double_quotes s ++ String quote "")
  else s.

(** The text of a raw value: nothing for a missing one. *)
Definition cell_csv (c : cell) : string :=
  match c with
  | NA => ""
  | Number n => number_str n
  | Text s => s
  | Stamp ns => stamp_str ns
  end.

(** A record with a single empty field is written as a pair of quotes. *)
Definition csv_line (fields : list string) : string :=
  match fields with
  | [EmptyString] => String quote (String quote (String newline ""))
  | _ => String.concat "," (map csv_field fields) ++ String newline ""
  end.

Definition row_cells (df : DataFrame) (i : nat) : list cell :=
  map (fun c => nth i (series_cells (snd c)) NA) df.

Definition csv_rows (df : DataFrame) : list (list string) :=
  map (fun i => map cell_csv (row_cells df i)) (seq 0 (len df)).

(** [df.to_csv(index=False)]: the header line, then one line a row. *)
Definition to_csv (df : DataFrame) : string :=
  String.concat "" (map csv_line (map fst df :: csv_rows df)).

(** *** Insights *)

Fixpoint argmax_from (best : nat * Q) (l : list (nat * Q)) : nat :=
  match l with
  | [] => fst best
  | x :: r => argmax_from (if Qle_bool (snd x) (snd best) then best else x) r
  end.

(** [s.idxmax()], as a position: the first row holding the largest value. *)
Definition idxmax (s : Series) : py nat :=
  match s with
  | ObjectSeries _ =>
      Raise (TypeError "reduction operation 'argmax' not allowed for this dtype")
  | Int64Series _ | Float64Series _ | DatetimeSeries _ =>
      match valid_positions 0 (order_values s) with
      | [] => Raise (ValueError "Encountered all NA values")
      | first :: rest => Ret (argmax_from first rest)
      end
  end.

Definition cell_at (df : DataFrame) (name : string) (i : nat) : py cell :=
  s <- getitem df name ;;
  Ret (nth i (series_cells s) NA).

Definition cell_number (c : cell) : py number :=
  match c with
  | Number n => Ret n
  | NA | Text _ | Stamp _ => Raise (TypeError "unsupported format string")
  end.

Definition blank_line : string := String newline (String newline "").

(** The box under [if name in df.columns and not df[name].empty]. *)
Definition insight (df : DataFrame) (name : string)
  (text : string -> number -> string) : ui unit :=
  match lookup name df with
  | Some s =>
      if series_len s =? 0 then done
      else
        message <~ lift (i <- idxmax s ;;
                         title <- cell_at df "post title (first sentence)" i ;;
                         value <- (c <- cell_at df name i ;; cell_number c) ;;
                         Ret (text (cell_csv title) value)) ;;
        emit (Info message)
  | None => done
  end.

Definition best_post_text (title : string) (rate : number) : string :=
  "**Best Performing Post:**" ++ blank_line ++ title ++ blank_line
  ++ "Engagement Rate: " ++ format_2f (times100 rate) ++ "%".

Definition most_viewed_text (title : string) (impressions : number) : string :=
  "**Most Viewed Post:**" ++ blank_line ++ title ++ blank_line
  ++ "Impressions: " ++ format_comma impressions.

(** *** [main] *)

Definition show_chart (fig : option Figure) : ui unit :=
  match fig with
  | Some f => emit (PlotlyChart f)
  | None => done
  end.

(** The table the charts, the display and the export start from: the
    loaded table after the two filters of the side bar. *)
Definition sidebar_filters (st : session) (df : DataFrame) : py DataFrame :=
  df <- filter_post_type (selected_post_type st) df ;;
  filter_date_range (date_range st) df.

(** The run of [main] on a loaded table. *)
Definition render (st : session) (df : DataFrame) : ui unit :=
  emit (Success ("Successfully loaded " ++ int_str (Z.of_nat (len df)) ++ " posts!")) ;;;
  cards <~ lift (create_summary_metrics df) ;;
  emit (Metrics cards) ;;;
  df <~ lift (sidebar_filters st df) ;;
  trend_fig <~ lift (create_engagement_trend_chart df) ;;
  show_chart trend_fig ;;;
  scatter_fig <~ lift (create_scatter_plot df) ;;
  show_chart scatter_fig ;;;
  top_engagement_fig <~ lift (create_top_posts_chart df "engagement rate" default_top_n) ;;
  show_chart top_engagement_fig ;;;
  top_ctr_fig <~ lift (create_top_posts_chart df "click through rate (ctr)" default_top_n) ;;
  show_chart top_ctr_fig ;;;
  display_df <~ lift (format_display df) ;;
  display_df <~ lift (search (search_term st) display_df) ;;
  emit (Dataframe display_df) ;;;
  emit (DownloadButton "Download filtered data as CSV" (to_csv df)
          ("linkedin_analytics_" ++ now st ++ ".csv")) ;;;
  insight df "engagement rate" best_post_text ;;;
  insight df "impressions" most_viewed_text.

(** [main()] *)
Definition main (st : session) : ui unit :=
  match uploaded_file st with
  | Some file =>
      match load_and_process_data file with
      | Table df => render st df
      | NoTable message => emit (Error message)
      end
  | None =>
      emit (Info "Please upload your LinkedIn analytics Excel file to get started!")
  end.

(** What one run puts on the page. *)
Definition shown (st : session) : list element := fst (main st).

End WithPandas.
End Page.

(** ** Notions used to state the properties *)

Module Notions.
Import Py Num Frame Loader Summary.

(** The input is missing, or every character of it is white space (the
    empty text included). *)
Definition blank (text : option string) : Prop :=
  match text with
  | None => True
  | Some s => Text.all_space s = true
  end.


(** The values of a column that are not missing. *)
Fixpoint present (l : list (option Q)) : list Q :=
  match l with
  | [] => []
  | Some q :: r => q :: present r
  | None :: r => present r
  end.

Definition Qsum (l : list Q) : Q := fold_right Qplus 0%Q l.

(** Two scalars denote the same value. *)
Definition scalar_eq (x y : scalar) : Prop :=
  match x, y with
  | None, None => True
  | Some a, Some b => (number_value a == number_value b)%Q
  | _, _ => False
  end.

(** The mean of the given values as a percentage, [NaN] when there is
    none. *)
Definition percent_mean (vs : list Q) : scalar :=
  match vs with
  | [] => NaN
  | _ :: _ =>
      Some (Float (100 * (Qsum vs / inject_Z (Z.of_nat (List.length vs)))))
  end.

Definition metric_columns : list string :=
  ["engagement rate"; "click through rate (ctr)"; "impressions"].

(** The three metric columns, where present, have a numeric dtype: the
    state the loader leaves them in. *)
Definition metric_columns_numeric (df : DataFrame) : Prop :=
  forall name s,
    In name metric_columns -> lookup name df = Some s -> is_numeric s = true.

(** Every value of the column is missing. *)
Definition all_missing (s : Series) : Prop :=
  Forall (fun c => c = None) (numeric_values s).

(** Three posts, the second with no engagement rate and no impressions. *)
Definition three_posts : DataFrame :=
  [ ("post title", ObjectSeries [Text "a"; Text "b"; Text "c"]);
    ("engagement rate", Float64Series [Some (1 # 10); None; Some (3 # 10)]);
    ("impressions", Float64Series [Some 100; None; Some 200])%Q ].

(** Three posts whose engagement rates are all missing; there is no
    click-through column. *)
Definition posts_without_rates : DataFrame :=
  [ ("post title", ObjectSeries [Text "a"; Text "b"; Text "c"]);
    ("engagement rate", Float64Series [None; None; None]) ].

(** *** A small pandas for the examples

    Numbers are runs of decimal digits; no text is a date, except the empty
    text and [NaT], which read as the missing date; a timestamp prints as
    its count of nanoseconds; a pattern with operators is refused. *)

Fixpoint digits_value (acc : Z) (s : string) : option Z :=
  match s with
  | EmptyString => Some acc
  | String c r =>
      let n := nat_of_ascii c in
      if (48 <=? n) && (n <=? 57)
      then digits_value (10 * acc + Z.of_nat (n - 48)) r
      else None
  end.

Definition example_pandas : Pandas := {|
  parse_number := fun s =>
    if (s =? "")%string then None else option_map Int (digits_value 0 s);
  parse_datetime := fun s =>
    if (s =? "")%string || (s =? "NaT")%string then Some None else None;
  datetime_of_float := fun q => Some (Qfloor q);
  stamp_str := int_str;
  re_search_ignorecase := fun p _ => Raise (ReError ("unsupported pattern: " ++ p))
|}.

(** A sheet with one date cell that is not a date and one rate cell that is
    not a number. *)
Definition sheet_with_bad_cells : DataFrame :=
  [ (" Post title", ObjectSeries [Text "Hello world"; Text "Second post"]);
    ("Created date", ObjectSeries [Stamp 1700000000000000000; Text "not a date"]);
    ("Engagement Rate ", ObjectSeries [Number (Float (5 # 100)); Text "n/a"]) ].

(** The same sheet without its date column. *)
Definition sheet_with_bad_rate : DataFrame :=
  [ (" Post title", ObjectSeries [Text "Hello world"; Text "Second post"]);
    ("Engagement Rate ", ObjectSeries [Number (Float (5 # 100)); Text "n/a"]) ].

(** Two dated posts with an engagement rate, as the loader leaves a sheet
    that has neither impressions nor click-through rates. *)
Definition dated_posts : DataFrame :=
  [ ("post title", ObjectSeries [Text "Hello world"; Text "Second post"]);
    ("post title (first sentence)",
     ObjectSeries [Text "Hello world"; Text "Second post"]);
    ("created date",
     DatetimeSeries [Some 1700000000000000000; Some 1700100000000000000]%Z);
    ("engagement rate", Float64Series [Some (5 # 100); Some (1 # 10)]%Q) ].

(** The same posts with impressions, still without click-through rates. *)
Definition posts_without_ctr : DataFrame :=
  [ ("post title", ObjectSeries [Text "Hello world"; Text "Second post"]);
    ("post title (first sentence)",
     ObjectSeries [Text "Hello world"; Text "Second post"]);
    ("engagement rate", Float64Series [Some (5 # 100); Some (1 # 10)]%Q);
    ("impressions", Int64Series [100; 200]%Z) ].

(** The values the bars of the ranking chart carry for the selected rows:
    percentages for the two rates, the metric itself otherwise. *)
Definition bar_values (metric : string) (selected : Series) : py Series :=
  if Charts.is_rate_metric metric then series_times100 selected
  else Ret selected.

(** Four posts with engagement rates 0.5, 0.9, 0.2 and 0.7. *)
Definition four_posts : DataFrame :=
  [ ("post title (first sentence)",
     ObjectSeries [Text "A"; Text "B"; Text "C"; Text "D"]);
    ("engagement rate",
     Float64Series [Some (5 # 10); Some (9 # 10); Some (2 # 10); Some (7 # 10)]%Q);
    ("impressions", Int64Series [10; 20; 30; 40]%Z) ].

(** [needle] occurs in [hay] as a literal substring, letter case aside. *)
Definition icontains (needle hay : string) : bool :=
  Text.contains (Text.lower needle) (Text.lower hay).

(** A pattern without the dot and without operators. *)
Fixpoint is_literal (p : string) : bool :=
  match p with
  | EmptyString => true
  | String c r =>
      negb (c =? ".")%char && negb (Page.is_operator c) && is_literal r
  end.

(** A displayed table of one post. *)
Definition one_title (title : string) : DataFrame :=
  [ ("post title (first sentence)", ObjectSeries [Text title]) ].

(** *** Reading a rendered number *)

Definition is_digit (c : ascii) : bool :=
  let n := nat_of_ascii c in (48 <=? n) && (n <=? 57).

Fixpoint all_digits (s : string) : bool :=
  match s with
  | EmptyString => true
  | String c r => is_digit c && all_digits r
  end.












(** The table after the two side-bar filters and the search: the table
    the export would hold if the search were applied to it. *)
Definition fully_filtered {pandas : Pandas} (st : Page.session)
  (loaded : DataFrame) : py DataFrame :=
  df <- Page.sidebar_filters st loaded ;;
  Page.search (Page.search_term st) df.

(** *** An example session

    A sheet of three posts with every column, one impressions cell empty;
    no post type is chosen, the whole span of dates is selected, and the
    search box holds [launch]. *)
Definition example_sheet : DataFrame :=
  [ ("Post title",
     ObjectSeries [Text "Product Launch Day"; Text "Weekly update";
                   Text "Hiring engineers"]);
    ("Created date",
     DatetimeSeries [Some 1700000000000000000; Some 1700100000000000000;
                     Some 1700200000000000000]%Z);
    ("Engagement rate",
     Float64Series [Some (1 # 2); Some (1234 # 10000); Some (5 # 100)]%Q);
    ("Click through rate (CTR)",
     Float64Series [Some (1 # 100); Some (2 # 100); Some (3 # 100)]%Q);
    ("Impressions", Float64Series [Some 1234567; None; Some 200]%Q);
    ("Post type", ObjectSeries [Text "Organic"; Text "Organic"; Text "Sponsored"]) ].

Definition example_session (term : string) : Page.session :=
  {| Page.uploaded_file := Some (Ret example_sheet);
     Page.selected_post_type := Text "All";
     Page.date_range := [19675; 19680]%Z;
     Page.search_term := term;
     Page.now := "20240115_093000" |}.

(** *** Notions for the further properties *)

(** Every column of the table has [n] rows. *)
Definition well_formed (n : nat) (df : DataFrame) : Prop :=
  Forall (fun c => series_len (snd c) = n) df.

(** The message shown when the title column is not found. *)
Definition title_not_found : string :=
  "Error: 'Post title' column not found. Please ensure your Excel file has this column.".

(** Every value of the column is a text of at most [n] characters. *)
Definition texts_within (n : nat) (s : Series) : Prop :=
  exists l, s = ObjectSeries l
            /\ Forall (fun c => exists t, c = Text t /\ String.length t <= n) l.

Definition is_datetime (s : Series) : bool :=
  match s with
  | DatetimeSeries _ => true
  | ObjectSeries _ | Int64Series _ | Float64Series _ => false
  end.

End Notions.
(** * Properties *)

Import Text Extractor Py Num Frame Loader Summary Charts Dashboard Page Notions.

(** ** Facts about Python strings *)

Lemma length_append (a b : string) :
  String.length (a ++ b) = String.length a + String.length b.
Proof. induction a as [|c a IH]; simpl; [reflexivity | now rewrite IH]. Qed.


Lemma length_zero (s : string) : String.length s = 0 -> s = "".
Proof. destruct s; [reflexivity | discriminate]. Qed.

Lemma length_slice_to (n : nat) (s : string) :
  String.length (slice_to n s) = Nat.min n (String.length s).
Proof.
  unfold slice_to. revert s.
  induction n as [|n IH]; intros [|c r]; simpl; try reflexivity.
  now rewrite IH.
Qed.

Lemma length_lstrip (s : string) : String.length (lstrip s) <= String.length s.
Proof.
  induction s as [|c r IH]; simpl; [lia|].
  destruct (is_space c); simpl; lia.
Qed.

Lemma length_rstrip (s : string) : String.length (rstrip s) <= String.length s.
Proof.
  induction s as [|c r IH]; simpl; [lia|].
  destruct (rstrip r) eqn:E; [destruct (is_space c)|]; simpl in *; lia.
Qed.

Lemma length_strip (s : string) : String.length (strip s) <= String.length s.
Proof.
  unfold strip.
  pose proof (length_rstrip (lstrip s)). pose proof (length_lstrip s). lia.
Qed.

Lemma lstrip_all_space (s : string) : lstrip s = "" <-> all_space s = true.
Proof.
  induction s as [|c r IH]; simpl; [tauto|].
  destruct (is_space c); simpl; [exact IH|].
  split; discriminate.
Qed.

Lemma rstrip_all_space (s : string) : rstrip s = "" <-> all_space s = true.
Proof.
  induction s as [|c r IH]; simpl; [tauto|].
  destruct (rstrip r) eqn:E.
  - destruct (is_space c); simpl; [tauto|]. split; discriminate.
  - split; [discriminate|].
    intros H. apply andb_prop in H. destruct H as [_ H].
    apply IH in H. discriminate.
Qed.

Lemma all_space_lstrip (s : string) : all_space (lstrip s) = all_space s.
Proof.
  induction s as [|c r IH]; simpl; [reflexivity|].
  destruct (is_space c) eqn:E; simpl; [exact IH | now rewrite E].
Qed.

Lemma strip_empty_iff (s : string) : strip s = "" <-> all_space s = true.
Proof.
  unfold strip. rewrite rstrip_all_space, all_space_lstrip. tauto.
Qed.

Lemma rstrip_idem (s : string) : rstrip (rstrip s) = rstrip s.
Proof.
  induction s as [|c r IH]; simpl; [reflexivity|].
  destruct (rstrip r) as [|c' r'] eqn:E.
  - destruct (is_space c) eqn:Ec; simpl; [reflexivity | now rewrite Ec].
  - change (rstrip (String c (String c' r')) = String c (String c' r')).
    change (rstrip (String c (String c' r')))
      with (match rstrip (String c' r') with
            | "" => if is_space c then "" else String c ""
            | x => String c x end).
    now rewrite IH.
Qed.

(** A text that does not begin with white space keeps its first character
    under [rstrip]. *)
Lemma lstrip_rstrip_lstrip (s : string) :
  lstrip (rstrip (lstrip s)) = rstrip (lstrip s).
Proof.
  induction s as [|c r IH]; simpl; [reflexivity|].
  destruct (is_space c) eqn:Ec; [exact IH|].
  simpl. destruct (rstrip r); [rewrite Ec|]; simpl; now rewrite Ec.
Qed.

Lemma strip_idem (s : string) : strip (strip s) = strip s.
Proof.
  unfold strip. rewrite lstrip_rstrip_lstrip. apply rstrip_idem.
Qed.

(** ** Facts about the sentence extractor *)

Lemma space_not_sentence_end (c : ascii) :
  is_space c = true -> is_sentence_end c = false.
Proof.
  destruct c as [[] [] [] [] [] [] [] []]; vm_compute; congruence.
Qed.

Lemma single_piece_no_boundary (s : string) (skipping : bool) :
  snd (re_split_from skipping s) = [] -> has_boundary s = false.
Proof.
  revert skipping. induction s as [|c r IH]; intros skipping; simpl; [reflexivity|].
  destruct (skipping && is_space c) eqn:Ek.
  - intros H. apply andb_prop in Ek. destruct Ek as [_ Ec].
    rewrite (space_not_sentence_end _ Ec). simpl. eauto.
  - destruct (is_sentence_end c && starts_with_space r) eqn:Em.
    + simpl. destruct (re_split_from true r). discriminate.
    + simpl. destruct (re_split_from false r) as [p ps] eqn:Er. simpl.
      intros ->. apply (IH false). now rewrite Er.
Qed.

Lemma no_boundary_single_piece (s : string) :
  has_boundary s = false -> re_split_from false s = (s, []).
Proof.
  induction s as [|c r IH]; simpl; [reflexivity|].
  intros H. apply orb_false_elim in H. destruct H as [Hm Hr].
  rewrite Hm, (IH Hr). reflexivity.
Qed.

Lemma re_split_single (s : string) :
  List.length (re_split s) = 1 <-> has_boundary s = false.
Proof.
  unfold re_split. split.
  - destruct (re_split_from false s) as [p ps] eqn:E. simpl. intros H.
    apply (single_piece_no_boundary s false). rewrite E. simpl.
    destruct ps; [reflexivity | discriminate].
  - intros H. now rewrite (no_boundary_single_piece _ H).
Qed.

Lemma all_space_no_boundary (s : string) :
  all_space s = true -> has_boundary s = false.
Proof.
  induction s as [|c r IH]; simpl; [reflexivity|].
  intros H. apply andb_prop in H. destruct H as [Hc Hr].
  now rewrite (space_not_sentence_end _ Hc), (IH Hr).
Qed.

Lemma has_boundary_lstrip (s : string) :
  has_boundary s = false -> has_boundary (lstrip s) = false.
Proof.
  induction s as [|c r IH]; simpl; [reflexivity|].
  intros H. destruct (is_space c); [|exact H].
  apply orb_false_elim in H. tauto.
Qed.

Lemma starts_with_space_rstrip (s : string) :
  starts_with_space (rstrip s) = true -> starts_with_space s = true.
Proof.
  destruct s as [|c r]; simpl; [discriminate|].
  destruct (rstrip r); [destruct (is_space c) eqn:Ec|]; simpl; congruence.
Qed.

Lemma has_boundary_rstrip (s : string) :
  has_boundary s = false -> has_boundary (rstrip s) = false.
Proof.
  induction s as [|c r IH]; simpl; [reflexivity|].
  intros H. apply orb_false_elim in H. destruct H as [Hm Hr].
  specialize (IH Hr).
  destruct (rstrip r) as [|c' r'] eqn:E.
  - destruct (is_space c); simpl; [reflexivity|].
    now rewrite andb_false_r.
  - change (has_boundary (String c (String c' r')))
      with ((is_sentence_end c && starts_with_space (String c' r'))
            || has_boundary (String c' r')).
    rewrite IH, orb_false_r.
    destruct (starts_with_space (String c' r')) eqn:Es;
      [|now rewrite andb_false_r].
    rewrite <- E in Es. apply starts_with_space_rstrip in Es.
    rewrite Es in Hm. exact Hm.
Qed.

Lemma has_boundary_strip (s : string) :
  has_boundary s = false -> has_boundary (strip s) = false.
Proof.
  intros H. unfold strip. now apply has_boundary_rstrip, has_boundary_lstrip.
Qed.

(** On a text with a single candidate sentence whose stripped form has at
    most 100 characters the extractor is [strip]. *)
Lemma extract_single_short (s : string) :
  has_boundary s = false -> String.length (strip s) <= 100 ->
  extract_first_sentence (Some s) = strip s.
Proof.
  intros Hb Hl. unfold extract_first_sentence.
  destruct (String.eqb_spec s "") as [->|Hne]; [reflexivity|].
  unfold re_split. rewrite (no_boundary_single_piece _ Hb).
  destruct (Nat.ltb_spec 100 (String.length (strip s))); [lia | reflexivity].
Qed.

Lemma length_extract (text : option string) :
  String.length (extract_first_sentence text) <= 100.
Proof.
  destruct text as [s|]; simpl; [|lia].
  destruct (s =? "")%string; simpl; [lia|].
  destruct (re_split s) as [|s0 rest]; simpl; [lia|].
  match goal with
  | |- context [if 100 <? String.length ?x then _ else _] =>
      destruct (Nat.ltb_spec 100 (String.length x)) as [H|H]; [|exact H]
  end.
  rewrite length_append, length_slice_to.
  change (String.length "...") with 3. lia.
Qed.

Lemma append_nonempty (a b : string) : b <> "" -> (a ++ b)%string <> "".
Proof. intros Hb. destruct a; simpl; [exact Hb | discriminate]. Qed.

Lemma extract_empty_iff (s : string) :
  extract_first_sentence (Some s) = "" <-> all_space s = true.
Proof.
  split.
  - unfold extract_first_sentence.
    destruct (String.eqb_spec s "") as [->|Hne]; [reflexivity|].
    unfold re_split.
    destruct (re_split_from false s) as [s0 rest] eqn:E.
    set (fs := match rest with
               | s1 :: _ => if String.length (strip s0) <? 20
                            then (s0 ++ ". " ++ s1)%string else strip s0
               | [] => strip s0 end).
    destruct (Nat.ltb_spec 100 (String.length fs)) as [H|H].
    + intros Hcontra. exfalso. revert Hcontra. apply append_nonempty. discriminate.
    + subst fs. destruct rest as [|s1 rest'].
      * intros Hs.
        assert (Hb : has_boundary s = false).
        { apply (single_piece_no_boundary s false). now rewrite E. }
        rewrite (no_boundary_single_piece _ Hb) in E. inversion E; subst s0.
        now apply strip_empty_iff.
      * destruct (Nat.ltb_spec (String.length (strip s0)) 20) as [H20|H20].
        -- intros Hcontra. exfalso. revert Hcontra.
           apply append_nonempty. discriminate.
        -- intros Hs. rewrite Hs in H20. simpl in H20. lia.
  - intros Ha. rewrite extract_single_short.
    + now apply strip_empty_iff.
    + now apply all_space_no_boundary.
    + apply strip_empty_iff in Ha. rewrite Ha. simpl. lia.
Qed.

(** C5, as the code has it: for every text input (missing included) the
    sentence extractor returns at most 100 characters, and the result is
    the empty string exactly when the input is missing or made of white
    space only; the empty text is one such input. *)
Theorem extract_first_sentence_bounded_and_empty_iff_blank
  (text : option string) :
  String.length (extract_first_sentence text) <= 100
  /\ (extract_first_sentence text = "" <-> blank text)
  /\ (text = None \/ text = Some "" -> extract_first_sentence text = "").
Proof.
  split; [apply length_extract|]. split.
  - destruct text as [s|]; [apply extract_empty_iff | simpl; tauto].
  - intros [-> | ->]; reflexivity.
Qed.

(** C5 as stated fails: a single space is neither missing nor empty, and
    the extractor maps it to the empty string. *)
Lemma extract_first_sentence_blank_counterexample :
  ~ (extract_first_sentence (Some " ") = ""
     <-> (Some " " = @None string \/ Some " " = Some "")).
Proof.
  intros [H _]. destruct (H eq_refl) as [E | E]; discriminate E.
Qed.

(** C9: on an input with a single candidate sentence (the split yields one
    piece) and no more than 100 characters, extracting from the extractor's
    own output gives that output back. *)
Theorem extract_first_sentence_idempotent_on_short_single (s : string) :
  List.length (re_split s) = 1 ->
  String.length s <= 100 ->
  extract_first_sentence (Some (extract_first_sentence (Some s)))
  = extract_first_sentence (Some s).
Proof.
  intros Hone Hlen. apply re_split_single in Hone.
  pose proof (length_strip s) as Hs.
  rewrite (extract_single_short s Hone) by lia.
  rewrite extract_single_short.
  - apply strip_idem.
  - now apply has_boundary_strip.
  - rewrite strip_idem. lia.
Qed.

Lemma extract_first_sentence_idempotent_witness :
  extract_first_sentence
    (Some (extract_first_sentence (Some "  Product Launch Day!")))
  = extract_first_sentence (Some "  Product Launch Day!")
  /\ extract_first_sentence (Some "  Product Launch Day!")
     = "Product Launch Day!".
Proof.
  split; [|reflexivity].
  apply (extract_first_sentence_idempotent_on_short_single
           "  Product Launch Day!").
  - reflexivity.
  - vm_compute. lia.
Defined.


(** ** Facts about tables *)

Lemma lookup_setitem_same (df : DataFrame) (name : string) (s : Series) :
  lookup name (setitem df name s) = Some s.
Proof.
  induction df as [|[n old] rest IH]; simpl.
  - now rewrite String.eqb_refl.
  - destruct (n =? name)%string eqn:E; simpl; rewrite E; [reflexivity | exact IH].
Qed.

Lemma lookup_setitem_other (df : DataFrame) (name other : string) (s : Series) :
  other <> name ->
  lookup other (setitem df name s) = lookup other df.
Proof.
  intros Hne. induction df as [|[n old] rest IH]; simpl.
  - destruct (String.eqb_spec name other); [congruence | reflexivity].
  - destruct (String.eqb_spec n name) as [->|Hn]; simpl.
    + destruct (String.eqb_spec name other); [congruence | reflexivity].
    + destruct (n =? other)%string; [reflexivity | exact IH].
Qed.

Lemma mapM_raises {A B : Type} (f : A -> py B) (l : list A) (a : A) :
  In a l -> returns (f a) = false -> returns (mapM f l) = false.
Proof.
  induction l as [|x r IH]; simpl; [tauto|].
  intros [-> | Hin] Hf.
  - destruct (f a); [discriminate | reflexivity].
  - destruct (f x); simpl; [|reflexivity].
    specialize (IH Hin Hf). destruct (mapM f r); [discriminate | reflexivity].
Qed.

Lemma nansum_present (l : list (option Q)) : (nansum l == Qsum (present l))%Q.
Proof.
  unfold nansum. induction l as [|[q|] r IH]; simpl.
  - reflexivity.
  - now rewrite IH.
  - rewrite IH. ring.
Qed.

Lemma count_valid_present (l : list (option Q)) :
  count_valid l = List.length (present l).
Proof.
  unfold count_valid. induction l as [|[q|] r IH]; simpl; congruence.
Qed.

Lemma present_int_values (l : list Z) :
  present (int_values l) = map inject_Z l.
Proof. induction l as [|z r IH]; simpl; congruence. Qed.

Lemma Qsum_inject (l : list Z) :
  (Qsum (map inject_Z l) == inject_Z (fold_right Z.add 0%Z l))%Q.
Proof.
  induction l as [|z r IH]; simpl; [reflexivity|].
  rewrite IH, inject_Z_plus. reflexivity.
Qed.

(** ** Facts about the metrics summariser *)

Lemma nanmean_present (l : list (option Q)) :
  scalar_eq (scalar_times100 (nanmean l)) (percent_mean (present l)).
Proof.
  unfold nanmean. rewrite count_valid_present.
  pose proof (nansum_present l) as Hs.
  destruct (present l) as [|v vs] eqn:E; simpl; [exact I|].
  simpl in Hs. rewrite Hs. ring.
Qed.

Lemma average_percent_numeric (name : string) (df : DataFrame) (s : Series) :
  lookup name df = Some s -> is_numeric s = true ->
  exists a, average_percent name df = Ret a
            /\ scalar_eq a (percent_mean (present (numeric_values s))).
Proof.
  intros Hl Hn. unfold average_percent, has_column, getitem. rewrite Hl.
  destruct s as [l|l|l|l]; try discriminate; simpl;
    eexists; (split; [reflexivity | apply nanmean_present]).
Qed.

Lemma average_percent_absent (name : string) (df : DataFrame) :
  lookup name df = None -> average_percent name df = Ret (Some (Int 0)).
Proof.
  intros Hl. unfold average_percent, has_column. now rewrite Hl.
Qed.

Lemma impressions_total_numeric (df : DataFrame) (s : Series) :
  lookup "impressions" df = Some s -> is_numeric s = true ->
  exists t, impressions_total df = Ret t
            /\ (number_value t == Qsum (present (numeric_values s)))%Q.
Proof.
  intros Hl Hn. unfold impressions_total, has_column, getitem. rewrite Hl.
  destruct s as [l|l|l|l]; try discriminate; simpl; eexists;
    (split; [reflexivity|]); simpl.
  - now rewrite present_int_values, Qsum_inject.
  - apply nansum_present.
Qed.

Lemma impressions_total_absent (df : DataFrame) :
  lookup "impressions" df = None -> impressions_total df = Ret (Int 0).
Proof.
  intros Hl. unfold impressions_total, has_column. now rewrite Hl.
Qed.

Lemma average_percent_returns (name : string) (df : DataFrame) :
  In name metric_columns -> metric_columns_numeric df ->
  exists a, average_percent name df = Ret a
            /\ forall s, lookup name df = Some s ->
                 scalar_eq a (percent_mean (present (numeric_values s))).
Proof.
  intros Hin Hdf. destruct (lookup name df) as [s|] eqn:Hl.
  - destruct (average_percent_numeric name df s Hl (Hdf _ _ Hin Hl)) as [a [Ha Hs]].
    exists a. split; [exact Ha|]. intros s' Hs'. now inversion Hs'; subst.
  - exists (Some (Int 0)). split; [now apply average_percent_absent | discriminate].
Qed.

Lemma impressions_total_returns (df : DataFrame) :
  metric_columns_numeric df ->
  exists t, impressions_total df = Ret t
            /\ forall s, lookup "impressions" df = Some s ->
                 (number_value t == Qsum (present (numeric_values s)))%Q.
Proof.
  intros Hdf. destruct (lookup "impressions" df) as [s|] eqn:Hl.
  - assert (Hin : In "impressions" metric_columns) by (simpl; tauto).
    destruct (impressions_total_numeric df s Hl (Hdf _ _ Hin Hl)) as [t [Ht Hs]].
    exists t. split; [exact Ht|]. intros s' Hs'. now inversion Hs'; subst.
  - exists (Int 0). split; [now apply impressions_total_absent | discriminate].
Qed.

(** C3: on a table whose metric columns are numeric, the summariser
    returns, and its averages and its impressions total are those of the
    values that are not missing: the mean divides the sum of the present
    values by their number, the sum adds the present values only.  On
    engagement rates [0.1, missing, 0.3] the average is 20 (shown as
    [20.00%]), not 13.33, and impressions [100, missing, 200] sum to 300. *)
Theorem summary_excludes_missing (df : DataFrame) :
  metric_columns_numeric df ->
  (exists m, summary_values df = Ret m
     /\ (forall s, lookup "engagement rate" df = Some s ->
           scalar_eq (avg_engagement m)
             (percent_mean (present (numeric_values s))))
     /\ (forall s, lookup "click through rate (ctr)" df = Some s ->
           scalar_eq (avg_ctr m)
             (percent_mean (present (numeric_values s))))
     /\ (forall s, lookup "impressions" df = Some s ->
           (number_value (total_impressions m)
            == Qsum (present (numeric_values s)))%Q))
  /\ (exists m, summary_values three_posts = Ret m
        /\ scalar_eq (avg_engagement m) (Some (Float 20))
        /\ ~ scalar_eq (avg_engagement m) (Some (Float (40 # 3)))
        /\ (number_value (total_impressions m) == 300)%Q
        /\ create_summary_metrics three_posts =
             Ret [ ("Total Posts", "3");
                   ("Total Impressions", "300.0");
                   ("Avg Engagement Rate", "20.00%");
                   ("Avg Click-Through Rate", "0.00%") ]).
Proof.
  intros Hdf. split.
  - destruct (average_percent_returns "engagement rate" df) as [a [Ha Has]];
      [simpl; tauto | exact Hdf |].
    destruct (average_percent_returns "click through rate (ctr)" df)
      as [c [Hc Hcs]]; [simpl; tauto | exact Hdf |].
    destruct (impressions_total_returns df Hdf) as [t [Ht Hts]].
    unfold summary_values. rewrite Ha, Hc, Ht. simpl.
    eexists. split; [reflexivity|]. simpl. auto.
  - eexists. split; [reflexivity|]. simpl.
    repeat split; try reflexivity. intros H. vm_compute in H. discriminate.
Qed.

Lemma summary_excludes_missing_witness :
  exists m, summary_values three_posts = Ret m
    /\ scalar_eq (avg_engagement m)
         (percent_mean [(1 # 10)%Q; (3 # 10)%Q])
    /\ (number_value (total_impressions m) == 100 + (200 + 0))%Q.
Proof.
  assert (H : metric_columns_numeric three_posts).
  { intros name s Hin Hl. simpl in Hin.
    destruct Hin as [<- | [<- | [<- | []]]]; vm_compute in Hl;
      inversion Hl; reflexivity. }
  destruct (summary_excludes_missing three_posts H) as [[m [Hm [He [_ Hi]]]] _].
  exists m. split; [exact Hm|]. split.
  - apply (He _ eq_refl).
  - apply (Hi _ eq_refl).
Defined.

Lemma present_all_missing (s : Series) :
  all_missing s -> present (numeric_values s) = [].
Proof.
  unfold all_missing. induction 1 as [|c r Hc _ IH]; [reflexivity|].
  subst c. exact IH.
Qed.

Lemma scalar_eq_nan (a : scalar) : scalar_eq a NaN -> a = NaN.
Proof. destruct a; simpl; [tauto | reflexivity]. Qed.

Lemma average_percent_present_not_fallback
  (name : string) (df : DataFrame) (s : Series) (a : scalar) :
  lookup name df = Some s -> average_percent name df = Ret a ->
  a <> Some (Int 0).
Proof.
  intros Hl. unfold average_percent, has_column, getitem. rewrite Hl. simpl.
  destruct s as [l|l|l|l]; simpl.
  - destruct (object_values l) as [vs|]; simpl; [|discriminate].
    unfold nanmean. destruct (count_valid vs =? 0); simpl; intros H; inversion H;
      discriminate.
  - unfold nanmean. destruct (count_valid (int_values l) =? 0); simpl;
      intros H; inversion H; discriminate.
  - unfold nanmean. destruct (count_valid l =? 0); simpl;
      intros H; inversion H; discriminate.
  - discriminate.
Qed.

(** C10: on a table whose metric columns are numeric the summariser
    returns, and for the engagement rate and for the click-through rate
    alike: when the column is present and every value in it is missing the
    average is [NaN]; the integer zero of the fallback is the average
    exactly when the column is absent. *)
Theorem summary_average_nan_when_all_missing (df : DataFrame) :
  metric_columns_numeric df ->
  exists m, summary_values df = Ret m
    /\ (forall s, lookup "engagement rate" df = Some s -> all_missing s ->
          avg_engagement m = NaN)
    /\ (forall s, lookup "click through rate (ctr)" df = Some s ->
          all_missing s -> avg_ctr m = NaN)
    /\ (avg_engagement m = Some (Int 0)
        <-> lookup "engagement rate" df = None)
    /\ (avg_ctr m = Some (Int 0)
        <-> lookup "click through rate (ctr)" df = None).
Proof.
  intros Hdf.
  destruct (average_percent_returns "engagement rate" df) as [a [Ha Has]];
    [simpl; tauto | exact Hdf |].
  destruct (average_percent_returns "click through rate (ctr)" df)
    as [c [Hc Hcs]]; [simpl; tauto | exact Hdf |].
  destruct (impressions_total_returns df Hdf) as [t [Ht _]].
  unfold summary_values. rewrite Ha, Hc, Ht. simpl.
  eexists. split; [reflexivity|]. simpl.
  repeat split.
  - intros s Hl Hs. apply scalar_eq_nan.
    specialize (Has s Hl). now rewrite (present_all_missing s Hs) in Has.
  - intros s Hl Hs. apply scalar_eq_nan.
    specialize (Hcs s Hl). now rewrite (present_all_missing s Hs) in Hcs.
  - intros E. destruct (lookup "engagement rate" df) as [s|] eqn:Hl;
      [|reflexivity].
    exfalso. exact (average_percent_present_not_fallback _ _ _ _ Hl Ha E).
  - intros Hl. rewrite (average_percent_absent _ _ Hl) in Ha. now inversion Ha.
  - intros E. destruct (lookup "click through rate (ctr)" df) as [s|] eqn:Hl;
      [|reflexivity].
    exfalso. exact (average_percent_present_not_fallback _ _ _ _ Hl Hc E).
  - intros Hl. rewrite (average_percent_absent _ _ Hl) in Hc. now inversion Hc.
Qed.

Lemma summary_average_nan_witness :
  exists m, summary_values posts_without_rates = Ret m
    /\ avg_engagement m = NaN
    /\ avg_ctr m = Some (Int 0)
    /\ create_summary_metrics posts_without_rates =
         Ret [ ("Total Posts", "3");
               ("Total Impressions", "0");
               ("Avg Engagement Rate", "nan%");
               ("Avg Click-Through Rate", "0.00%") ].
Proof.
  assert (H : metric_columns_numeric posts_without_rates).
  { intros name s Hin Hl. simpl in Hin.
    destruct Hin as [<- | [<- | [<- | []]]]; vm_compute in Hl;
      inversion Hl; reflexivity. }
  destruct (summary_average_nan_when_all_missing posts_without_rates H)
    as [m [Hm [He [_ [_ Hc]]]]].
  exists m. split; [exact Hm|]. split; [|split].
  - apply (He _ eq_refl). repeat constructor.
  - now apply Hc.
  - unfold create_summary_metrics. rewrite Hm. simpl.
    vm_compute in Hm. inversion Hm. reflexivity.
Defined.

(** ** Facts about the loader *)

Section LoaderFacts.
Context {pandas : Pandas}.

Lemma bind_raises {A B : Type} (m : py A) (k : A -> py B) :
  returns m = false -> returns (x <- m ;; k x) = false.
Proof. destruct m; [discriminate | reflexivity]. Qed.

Lemma to_datetime_raises (dates : list cell) (s : string) :
  In (Text s) dates -> parse_datetime s = None ->
  returns (to_datetime (ObjectSeries dates)) = false.
Proof.
  intros Hin Hp. simpl. apply bind_raises.
  apply (mapM_raises _ _ (Text s) Hin). simpl. now rewrite Hp.
Qed.


End LoaderFacts.

(** C1 fails for the date column: when the sheet has its title column and
    a created-date column in which one text cell is not a date, the loader
    returns no table. *)
Theorem load_fails_on_unparsable_date {pandas : Pandas}
  (df : DataFrame) (dates : list cell) (s : string) :
  has_column "post title" (normalise_columns df) = true ->
  lookup "created date" (normalise_columns df) = Some (ObjectSeries dates) ->
  In (Text s) dates ->
  parse_datetime s = None ->
  loaded_table (load_and_process_data (Ret df)) = None.
Proof.
  intros Ht Hd Hin Hp.
  unfold load_and_process_data, load_body.
  cbn [bind]. rewrite Ht. cbn [negb].
  unfold has_column in Ht. unfold getitem.
  destruct (lookup "post title" (normalise_columns df)) as [title|];
    [cbn [bind] | discriminate].
  unfold convert_if_present at 1.
  rewrite lookup_setitem_other by discriminate. rewrite Hd.
  pose proof (to_datetime_raises dates s Hin Hp) as Hr.
  destruct (to_datetime (ObjectSeries dates)); [discriminate | reflexivity].
Qed.

Lemma load_fails_on_unparsable_date_witness :
  loaded_table
    (load_and_process_data (pandas := example_pandas) (Ret sheet_with_bad_cells))
  = None
  /\ exists message,
       load_and_process_data (pandas := example_pandas) (Ret sheet_with_bad_cells)
       = NoTable message.
Proof.
  split; [|eexists; reflexivity].
  apply (load_fails_on_unparsable_date (pandas := example_pandas)
           sheet_with_bad_cells
           [Stamp 1700000000000000000; Text "not a date"] "not a date").
  - reflexivity.
  - reflexivity.
  - simpl. tauto.
  - reflexivity.
Defined.

(** The sibling conversions do what the claim says: without the date
    column the same sheet loads, and the rate cell that is not a number is
    missing in the table. *)
Lemma load_coerces_bad_rate :
  exists df,
    load_and_process_data (pandas := example_pandas) (Ret sheet_with_bad_rate)
    = Table df
    /\ lookup "engagement rate" df
       = Some (Float64Series [Some (5 # 100)%Q; None]).
Proof. eexists. split; reflexivity. Qed.

(** ** Facts about the chart builders *)

Lemma lookup_map_snd (f : Series -> Series) (name : string) (df : DataFrame) :
  lookup name (map (fun c => (fst c, f (snd c))) df)
  = option_map f (lookup name df).
Proof.
  induction df as [|[n s] rest IH]; simpl; [reflexivity|].
  destruct (n =? name)%string; [reflexivity | exact IH].
Qed.

Lemma has_column_frame_take (ps : list nat) (name : string) (df : DataFrame) :
  has_column name (frame_take ps df) = has_column name df.
Proof.
  unfold has_column, frame_take. rewrite lookup_map_snd.
  now destruct (lookup name df).
Qed.

Lemma getitem_absent {A : Type} (df : DataFrame) (name : string) (k : Series -> py A) :
  has_column name df = false -> returns (s <- getitem df name ;; k s) = false.
Proof.
  unfold has_column, getitem. destruct (lookup name df); [discriminate | reflexivity].
Qed.

Lemma select_raises (df : DataFrame) (names : list string) (name : string) :
  In name names -> has_column name df = false ->
  returns (select df names) = false.
Proof.
  intros Hin Hc. unfold select. apply (mapM_raises _ _ name Hin).
  now apply getitem_absent.
Qed.

Lemma groupby_agg_raises (df : DataFrame) (keys : list (option Z))
  (spec : list (string * aggfunc)) (name : string) (f : aggfunc) :
  In (name, f) spec -> has_column name df = false ->
  returns (groupby_agg df keys spec) = false.
Proof.
  intros Hin Hc. unfold groupby_agg.
  assert (Hf : In (name, f)
                 (filter (fun e => negb (has_column (fst e) df)) spec)).
  { apply filter_In. split; [exact Hin | simpl; now rewrite Hc]. }
  destruct (filter (fun e => negb (has_column (fst e) df)) spec);
    [destruct Hf | reflexivity].
Qed.

(** C2 fails on the code.  Each builder checks one column and then uses
    others: the trend builder raises on a table that has [created date]
    but lacks the engagement-rate, the impressions or the click-through
    column; the ranking builder raises when the metric column is there and
    [impressions] is not; the correlation builder raises when its two
    columns are there and the click-through column is not. *)
Theorem chart_builders_raise_on_absent_columns (df : DataFrame) :
  (has_column "created date" df = true ->
   has_column "engagement rate" df = false
   \/ has_column "impressions" df = false
   \/ has_column "click through rate (ctr)" df = false ->
   returns (create_engagement_trend_chart df) = false)
  /\ (forall metric top_n,
        has_column metric df = true ->
        has_column "impressions" df = false ->
        returns (create_top_posts_chart df metric top_n) = false)
  /\ (has_column "impressions" df = true ->
      has_column "engagement rate" df = true ->
      has_column "click through rate (ctr)" df = false ->
      returns (create_scatter_plot df) = false).
Proof.
  split; [|split].
  - intros Hd Habs. unfold create_engagement_trend_chart. rewrite Hd. simpl.
    unfold has_column in Hd. unfold getitem.
    destruct (lookup "created date" df) as [created|]; [simpl | discriminate].
    destruct (dt_date created) as [keys|]; [simpl | reflexivity].
    apply bind_raises.
    destruct Habs as [H | [H | H]].
    + apply (groupby_agg_raises _ _ _ "engagement rate" AggMean);
        [simpl; tauto | exact H].
    + apply (groupby_agg_raises _ _ _ "impressions" AggSum);
        [simpl; tauto | exact H].
    + apply (groupby_agg_raises _ _ _ "click through rate (ctr)" AggMean);
        [simpl; tauto | exact H].
  - intros metric top_n Hm Hi. unfold create_top_posts_chart. rewrite Hm.
    cbn [negb]. unfold nlargest, getitem. unfold has_column in Hm.
    destruct (lookup metric df) as [s|]; [cbn [bind] | discriminate].
    assert (Hsel : forall ps,
      returns (select (frame_take ps df)
                 ["post title (first sentence)"; metric; "impressions"]) = false).
    { intros ps. apply (select_raises _ _ "impressions"); [simpl; tauto|].
      now rewrite has_column_frame_take. }
    destruct s; cbn [bind]; try reflexivity; now apply bind_raises.
  - intros Hi He Hc. unfold create_scatter_plot. rewrite Hi, He. cbn.
    unfold has_column in He. unfold getitem.
    destruct (lookup "engagement rate" df) as [rate|]; [cbn [bind] | discriminate].
    destruct (series_times100 rate); [cbn [bind] | reflexivity].
    apply bind_raises. unfold px_columns.
    destruct (negb (distinct (map fst df))); [reflexivity|].
    cbn [filter]. rewrite Hi, Hc. cbn.
    now destruct (has_column "post title (first sentence)" df).
Qed.

Lemma chart_builders_raise_witness :
  (exists message,
     create_engagement_trend_chart dated_posts = Raise (KeyError message))
  /\ returns (create_engagement_trend_chart dated_posts) = false
  /\ returns (create_top_posts_chart dated_posts "engagement rate" 10) = false
  /\ returns (create_scatter_plot posts_without_ctr) = false.
Proof.
  split; [eexists; reflexivity|].
  destruct (chart_builders_raise_on_absent_columns dated_posts) as [Ht [Hr _]].
  destruct (chart_builders_raise_on_absent_columns posts_without_ctr) as [_ [_ Hs]].
  split; [|split].
  - apply Ht; [reflexivity | right; left; reflexivity].
  - apply Hr; reflexivity.
  - apply Hs; reflexivity.
Defined.

(** *** The selection made by [nlargest] *)

Lemma Qle_bool_false (x y : Q) : Qle_bool x y = false -> (y <= x)%Q.
Proof.
  intros H. destruct (Qlt_le_dec y x) as [Hlt | Hle].
  - now apply Qlt_le_weak.
  - apply Qle_bool_iff in Hle. congruence.
Qed.

Lemma insert_desc_In (x y : nat * Q) (l : list (nat * Q)) :
  In y (insert_desc x l) <-> y = x \/ In y l.
Proof.
  induction l as [|z r IH]; simpl; [intuition auto|].
  destruct (Qle_bool (snd z) (snd x)); simpl; [intuition auto|].
  rewrite IH. intuition auto.
Qed.

Lemma sort_desc_In (y : nat * Q) (l : list (nat * Q)) :
  In y (sort_desc l) <-> In y l.
Proof.
  induction l as [|x r IH]; simpl; [tauto|].
  rewrite insert_desc_In, IH. intuition auto.
Qed.

Lemma insert_desc_length (x : nat * Q) (l : list (nat * Q)) :
  List.length (insert_desc x l) = S (List.length l).
Proof.
  induction l as [|z r IH]; simpl; [reflexivity|].
  destruct (Qle_bool (snd z) (snd x)); simpl; congruence.
Qed.

Lemma sort_desc_length (l : list (nat * Q)) :
  List.length (sort_desc l) = List.length l.
Proof.
  induction l as [|x r IH]; simpl; [reflexivity|].
  now rewrite insert_desc_length, IH.
Qed.




(** The rows listed by [valid_positions] are the rows holding a value. *)
Lemma valid_positions_In (vals : list (option Q)) (k i : nat) (v : Q) :
  In (i, v) (valid_positions k vals)
  <-> k <= i /\ nth_error vals (i - k) = Some (Some v).
Proof.
  revert k. induction vals as [|[q|] r IH]; intros k; simpl.
  - split; [tauto|]. intros [_ H]. destruct (i - k); discriminate.
  - rewrite IH. split.
    + intros [H | [Hk Hn]].
      * inversion H; subst. split; [lia|]. now rewrite Nat.sub_diag.
      * split; [lia|]. replace (i - k) with (S (i - S k)) by lia. exact Hn.
    + intros [Hk Hn]. destruct (i - k) as [|m] eqn:E.
      * left. inversion Hn; subst. f_equal. lia.
      * right. split; [lia|]. replace (i - S k) with m by lia. exact Hn.
  - rewrite IH. split.
    + intros [Hk Hn]. split; [lia|].
      replace (i - k) with (S (i - S k)) by lia. exact Hn.
    + intros [Hk Hn]. destruct (i - k) as [|m] eqn:E; [discriminate|].
      split; [lia|]. replace (i - S k) with m by lia. exact Hn.
Qed.

Lemma valid_positions_length (vals : list (option Q)) (k : nat) :
  List.length (valid_positions k vals) = count_valid vals.
Proof.
  unfold count_valid. revert k.
  induction vals as [|[q|] r IH]; intros k; simpl; auto.
Qed.





(** *** The order in which the bars are drawn *)





(** *** The ranking builder *)

Lemma is_rate_metric_cases (metric : string) :
  is_rate_metric metric = true ->
  metric = "engagement rate" \/ metric = "click through rate (ctr)".
Proof.
  unfold is_rate_metric. intros H. apply orb_prop in H.
  destruct H as [H | H]; apply String.eqb_eq in H; auto.
Qed.

Lemma series_take_numeric (ps : list nat) (s : Series) :
  is_numeric s = true -> is_numeric (series_take ps s) = true.
Proof. destruct s; simpl; congruence. Qed.

Lemma series_times100_numeric (s : Series) :
  is_numeric s = true -> exists p, series_times100 s = Ret p.
Proof. destruct s; simpl; try discriminate; eauto. Qed.

Lemma nlargest_numeric (n : nat) (metric : string) (df : DataFrame) (s : Series) :
  lookup metric df = Some s -> is_numeric s = true ->
  nlargest n metric df
  = Ret (frame_take (nlargest_positions n (numeric_values s)) df).
Proof.
  intros Hl Hn. unfold nlargest, getitem. rewrite Hl.
  destruct s; simpl in *; try discriminate; reflexivity.
Qed.

Lemma lookup_frame_take (ps : list nat) (name : string) (df : DataFrame) (s : Series) :
  lookup name df = Some s ->
  lookup name (frame_take ps df) = Some (series_take ps s).
Proof.
  intros H. unfold frame_take. now rewrite lookup_map_snd, H.
Qed.

(** The rows [nlargest] selects and the three columns kept of them. *)
Lemma top_posts_selected
  (df : DataFrame) (metric : string) (top_n : nat) (s titles imps : Series) :
  lookup metric df = Some s ->
  is_numeric s = true ->
  lookup "post title (first sentence)" df = Some titles ->
  lookup "impressions" df = Some imps ->
  (largest <- nlargest top_n metric df ;;
   select largest ["post title (first sentence)"; metric; "impressions"])
  = Ret [ ("post title (first sentence)",
           series_take (nlargest_positions top_n (numeric_values s)) titles);
          (metric, series_take (nlargest_positions top_n (numeric_values s)) s);
          ("impressions",
           series_take (nlargest_positions top_n (numeric_values s)) imps) ].
Proof.
  intros Hmetric Hnumeric Htitles Himps.
  rewrite (nlargest_numeric _ _ _ _ Hmetric Hnumeric). cbn [bind].
  set (ps := nlargest_positions top_n (numeric_values s)).
  unfold select, mapM, getitem.
  rewrite (lookup_frame_take ps _ _ _ Htitles),
    (lookup_frame_take ps _ _ _ Hmetric),
    (lookup_frame_take ps _ _ _ Himps).
  reflexivity.
Qed.

(** The figure the ranking builder returns, spelled out. *)
Lemma top_posts_chart_figure
  (df : DataFrame) (metric : string) (top_n : nat) (s titles imps : Series) :
  lookup metric df = Some s ->
  is_numeric s = true ->
  lookup "post title (first sentence)" df = Some titles ->
  lookup "impressions" df = Some imps ->
  metric <> "impressions" ->
  metric <> "post title (first sentence)" ->
  exists title data x xs,
    create_top_posts_chart df metric top_n
    = Ret (Some (BarFigure title data x "post title (first sentence)"
                   ["impressions"]))
    /\ lookup "post title (first sentence)" data
       = Some (series_take (nlargest_positions top_n (numeric_values s)) titles)
    /\ lookup metric data
       = Some (series_take (nlargest_positions top_n (numeric_values s)) s)
    /\ lookup "impressions" data
       = Some (series_take (nlargest_positions top_n (numeric_values s)) imps)
    /\ bar_values metric
         (series_take (nlargest_positions top_n (numeric_values s)) s) = Ret xs
    /\ lookup x data = Some xs.
Proof.
  intros Hmetric Hnumeric Htitles Himps Hne_imps Hne_title.
  unfold create_top_posts_chart, has_column. rewrite Hmetric. cbn [negb].
  pose proof (top_posts_selected df metric top_n s titles imps
                Hmetric Hnumeric Htitles Himps) as Hsel.
  set (ps := nlargest_positions top_n (numeric_values s)) in *.
  destruct (nlargest top_n metric df) as [largest|e]; [|discriminate Hsel].
  cbn [bind] in Hsel |- *. rewrite Hsel. cbn [bind].
  assert (Hmi : (metric =? "impressions")%string = false)
    by now apply String.eqb_neq.
  assert (Hmt : ("post title (first sentence)" =? metric)%string = false)
    by (apply String.eqb_neq; congruence).
  assert (Hmm : (metric =? metric)%string = true) by apply String.eqb_refl.
  destruct (series_times100_numeric (series_take ps s)
              (series_take_numeric ps s Hnumeric)) as [p Hp].
  unfold bar_values.
  destruct (is_rate_metric metric) eqn:Hrate.
  - unfold getitem. cbn [lookup]. rewrite Hmt, Hmm. cbn [bind].
    rewrite Hp. cbn [bind fst snd].
    destruct (is_rate_metric_cases metric Hrate) as [-> | ->];
      (do 4 eexists; split; [reflexivity|]; repeat split; try reflexivity;
       exact Hp).
  - cbn [bind fst snd]. unfold px_columns.
    cbn [map fst distinct existsb]. rewrite Hmt, Hmi.
    cbn [negb andb orb filter has_column lookup].
    unfold has_column. cbn [lookup]. rewrite Hmt, Hmm, Hmi.
    cbn.
    do 4 eexists. split; [reflexivity|].
    cbn [lookup]. rewrite Hmt, Hmm, Hmi. cbn. repeat split; reflexivity.
Qed.


Lemma numeric_values_length (s : Series) :
  is_numeric s = true -> List.length (numeric_values s) = series_len s.
Proof.
  destruct s; simpl; try discriminate; intros _; [|reflexivity].
  unfold int_values. apply length_map.
Qed.




(** ** Facts about the search *)

Lemma lower_prefix_match (p t : string) :
  is_literal p = true ->
  match_here p t = prefix (lower p) (lower t).
Proof.
  revert t. induction p as [|pc pr IH]; intros t Hp.
  - destruct t; reflexivity.
  - simpl in Hp. apply andb_prop in Hp. destruct Hp as [Hc Hr].
    apply andb_prop in Hc. destruct Hc as [Hdot _].
    destruct t as [|tc tr]; [reflexivity|].
    simpl. unfold atom_matches.
    destruct (pc =? ".")%char; [discriminate|].
    rewrite (IH tr Hr).
    destruct (ascii_dec (lower_char pc) (lower_char tc)) as [E | E].
    + rewrite E, Ascii.eqb_refl. reflexivity.
    + apply Ascii.eqb_neq in E. rewrite E. reflexivity.
Qed.

(** On a term of plain characters the search is the literal,
    case-insensitive substring test. *)
Lemma search_plain_literal (p t : string) :
  is_literal p = true -> search_plain p t = icontains p t.
Proof.
  intros Hp. unfold icontains.
  induction t as [|tc tr IH].
  - simpl. rewrite (lower_prefix_match p "" Hp). simpl.
    now destruct (lower p).
  - cbn [search_plain lower contains]. rewrite IH.
    now rewrite (lower_prefix_match p (String tc tr) Hp).
Qed.

Lemma is_literal_plain (p : string) :
  is_literal p = true -> is_plain_pattern p = true.
Proof.
  induction p as [|c r IH]; simpl; [reflexivity|].
  intros H. apply andb_prop in H. destruct H as [Hc Hr].
  apply andb_prop in Hc. destruct Hc as [_ Hop].
  now rewrite Hop, (IH Hr).
Qed.

(** C7 fails on the code: the search box reads its text as a regular
    expression.  The term [a.c] is not a substring of the title [abc], in
    any letter case, and the search keeps the row. *)
Theorem search_reads_term_as_pattern {pandas : Pandas} :
  search "a.c" (one_title "abc") = Ret (one_title "abc")
  /\ icontains "a.c" "abc" = false
  /\ search "a.c" (one_title "a.c") = Ret (one_title "a.c")
  /\ icontains "a.c" "a.c" = true.
Proof. repeat split; reflexivity. Qed.

(** Where the term has no dot and no operator the search is the one the
    claim describes. *)
Lemma search_literal_term {pandas : Pandas} (term title : string) :
  is_literal term = true -> term <> "" ->
  search term (one_title title)
  = Ret (frame_mask [icontains term title] (one_title title)).
Proof.
  intros Hl Hne. unfold search.
  destruct (String.eqb_spec term ""); [contradiction|].
  unfold one_title, getitem. cbn [lookup String.eqb Ascii.eqb Bool.eqb].
  cbn [bind]. unfold str_contains, regex_contains.
  rewrite (is_literal_plain term Hl). cbn [bind mapM].
  now rewrite (search_plain_literal term title Hl).
Qed.

(** ** Facts about the rendering of numbers *)


Lemma all_digits_app (a b : string) :
  all_digits (a ++ b) = all_digits a && all_digits b.
Proof.
  induction a as [|c a IH]; simpl; [reflexivity|].
  now rewrite IH, andb_assoc.
Qed.













(** ** Facts about the displayed table *)







Lemma insert_at_In {A : Type} (i : nat) (x y : A) (l : list A) :
  In y (insert_at i x l) <-> y = x \/ In y l.
Proof.
  unfold insert_at. rewrite in_app_iff. simpl.
  assert (H : In y l <-> In y (firstn i l) \/ In y (skipn i l)).
  { rewrite <- in_app_iff. now rewrite firstn_skipn. }
  rewrite H. intuition auto.
Qed.

Lemma available_columns_present (df : DataFrame) (name : string) :
  In name (available_columns df) -> has_column name df = true.
Proof.
  unfold available_columns.
  set (cols := filter (fun c => has_column c df) display_columns).
  assert (Hc : In name cols -> has_column name df = true).
  { unfold cols. intros H. apply filter_In in H. tauto. }
  destruct (has_column "post type" df) eqn:Hp;
    destruct (has_column "created date" df) eqn:Hd;
    rewrite ?in_app_iff, ?insert_at_In; simpl; intuition (subst; auto).
Qed.








(** ** Facts about the page *)

Lemma in_ui_bind {A B : Type} (m : ui A) (k : A -> ui B) (e : element) :
  In e (fst (ui_bind m k))
  <-> In e (fst m) \/ exists a, snd m = Ret a /\ In e (fst (k a)).
Proof.
  unfold ui_bind. destruct m as [log [a | x]]; simpl.
  - rewrite in_app_iff. split.
    + intros [H | H]; [now left | right; eauto].
    + intros [H | [a' [E H]]]; [now left | inversion E; subst; now right].
  - split; [now left|]. intros [H | [a' [E _]]]; [exact H | discriminate].
Qed.

Ltac not_this_element H :=
  solve [ destruct H
        | simpl in H; destruct H as [H | []]; discriminate H ].

(** One step of a run: the element is not the one just shown, so it is
    shown later and the step returned. *)
Ltac ui_step H :=
  apply in_ui_bind in H;
  destruct H as [H | [? [? H]]]; [not_this_element H|].

Section PageFacts.
Context {pandas : Pandas}.

Lemma show_chart_no_download (fig : option Figure) (label data name : string) :
  ~ In (DownloadButton label data name) (fst (show_chart fig)).
Proof. destruct fig; simpl; [intros [H | []]; discriminate H | tauto]. Qed.

Lemma insight_no_download (df : DataFrame) (column : string)
  (text : string -> number -> string) (label data name : string) :
  ~ In (DownloadButton label data name) (fst (insight df column text)).
Proof.
  unfold insight. destruct (lookup column df) as [s|]; [|simpl; tauto].
  destruct (series_len s =? 0); [simpl; tauto|].
  intros H. ui_step H. not_this_element H.
Qed.

(** The download button of a run on a loaded table. *)
Lemma render_download (st : session) (loaded : DataFrame)
  (label data name : string) :
  In (DownloadButton label data name) (fst (render st loaded)) ->
  exists df,
    sidebar_filters st loaded = Ret df
    /\ data = to_csv df
    /\ name = ("linkedin_analytics_" ++ now st ++ ".csv")%string.
Proof.
  unfold render. intros H.
  ui_step H. ui_step H. ui_step H. ui_step H.
  match goal with E : snd (lift (sidebar_filters st loaded)) = Ret ?d |- _ =>
    exists d; split; [exact E|] end.
  ui_step H.
  apply in_ui_bind in H. destruct H as [H | [? [? H]]];
    [exfalso; exact (show_chart_no_download _ _ _ _ H)|].
  ui_step H.
  apply in_ui_bind in H. destruct H as [H | [? [? H]]];
    [exfalso; exact (show_chart_no_download _ _ _ _ H)|].
  ui_step H.
  apply in_ui_bind in H. destruct H as [H | [? [? H]]];
    [exfalso; exact (show_chart_no_download _ _ _ _ H)|].
  ui_step H.
  apply in_ui_bind in H. destruct H as [H | [? [? H]]];
    [exfalso; exact (show_chart_no_download _ _ _ _ H)|].
  ui_step H. ui_step H. ui_step H.
  apply in_ui_bind in H. destruct H as [H | [? [? H]]].
  - simpl in H. destruct H as [H | []]. inversion H. split; reflexivity.
  - exfalso. apply in_ui_bind in H. destruct H as [H | [? [? H]]];
      exact (insight_no_download _ _ _ _ _ _ H).
Qed.

End PageFacts.

(** C6, as the code has it.  Whenever a run shows the download button, a
    file was uploaded and loaded, and the data offered is the text of the
    loaded table after the post type filter and the date filter of the
    side bar: a header line with the column labels, then one line for each
    row of that table with its raw values.  The search term plays no part
    in it. *)
Theorem export_is_sidebar_filtered_table {pandas : Pandas}
  (st : session) (label data name : string) :
  In (DownloadButton label data name) (shown st) ->
  exists file loaded df,
    uploaded_file st = Some file
    /\ load_and_process_data file = Table loaded
    /\ (filtered <- filter_post_type (selected_post_type st) loaded ;;
        filter_date_range (date_range st) filtered) = Ret df
    /\ data = to_csv df
    /\ to_csv df
       = String.concat ""
           (csv_line (map fst df)
            :: map (fun i => csv_line (map cell_csv (row_cells df i)))
                 (seq 0 (len df)))
    /\ name = ("linkedin_analytics_" ++ now st ++ ".csv")%string.
Proof.
  unfold shown, main. intros H.
  destruct (uploaded_file st) as [file|]; [|not_this_element H].
  destruct (load_and_process_data file) as [loaded | message] eqn:Hload;
    [|not_this_element H].
  destruct (render_download st loaded label data name H) as [df [Hf [Hd Hn]]].
  exists file, loaded, df. repeat split; try assumption.
  unfold to_csv, csv_rows. cbn [map]. now rewrite map_map.
Qed.

Lemma export_is_sidebar_filtered_table_witness :
  exists data,
    In (DownloadButton "Download filtered data as CSV" data
          "linkedin_analytics_20240115_093000.csv")
       (shown (pandas := example_pandas) (example_session "launch"))
    /\ exists file loaded df,
         uploaded_file (example_session "launch") = Some file
         /\ load_and_process_data (pandas := example_pandas) file = Table loaded
         /\ (filtered <- filter_post_type (Text "All") loaded ;;
             filter_date_range [19675; 19680]%Z filtered) = Ret df
         /\ data = to_csv (pandas := example_pandas) df
         /\ len df = 3.
Proof.
  assert (exists data,
            In (DownloadButton "Download filtered data as CSV" data
                  "linkedin_analytics_20240115_093000.csv")
               (shown (pandas := example_pandas) (example_session "launch")))
    as [data H].
  { eexists. vm_compute. do 7 right. left. reflexivity. }
  exists data. split; [exact H|].
  destruct (export_is_sidebar_filtered_table (pandas := example_pandas)
              (example_session "launch") _ _ _ H)
    as [file [loaded [df [Hu [Hl [Hf [Hd _]]]]]]].
  exists file, loaded, df. repeat split; try assumption.
  simpl in Hu. inversion Hu; subst file.
  vm_compute in Hl. inversion Hl; subst loaded.
  vm_compute in Hf. inversion Hf. reflexivity.
Defined.

(** C6 as stated fails: with [launch] in the search box one of the three
    posts is left in the table, and the data offered for download is not
    the text of that table: it still holds the three posts. *)
Lemma export_ignores_search_counterexample :
  exists label data name loaded searched,
    In (DownloadButton label data name)
       (shown (pandas := example_pandas) (example_session "launch"))
    /\ load_and_process_data (pandas := example_pandas) (Ret example_sheet)
       = Table loaded
    /\ fully_filtered (pandas := example_pandas) (example_session "launch") loaded
       = Ret searched
    /\ len searched = 1
    /\ data <> to_csv (pandas := example_pandas) searched
    /\ data = to_csv (pandas := example_pandas) loaded.
Proof.
  do 5 eexists. split; [|split; [|split; [|split; [|split]]]].
  - vm_compute. do 7 right. left. reflexivity.
  - vm_compute. reflexivity.
  - vm_compute. reflexivity.
  - reflexivity.
  - intros E. apply (f_equal String.length) in E. vm_compute in E.
    discriminate E.
  - vm_compute. reflexivity.
Qed.

(** * Further properties of the code *)

(** ** Sentence extractor *)


Lemma starts_with_space_append (a b : string) :
  a <> "" -> starts_with_space (a ++ b) = starts_with_space a.
Proof. destruct a; [contradiction | reflexivity]. Qed.

(** A first sentence without inner boundary, closed by a full stop and a
    space, is the first piece of the split. *)
Lemma re_split_from_first (a b : string) :
  has_boundary a = false ->
  re_split_from false (a ++ ". " ++ b)
  = (a, let (p, ps) := re_split_from true b in p :: ps).
Proof.
  induction a as [|c r IH]; intros Hb.
  - reflexivity.
  - simpl in Hb. apply orb_false_elim in Hb. destruct Hb as [Hm Hr].
    assert (E : is_sentence_end c && starts_with_space (r ++ ". " ++ b) = false).
    { destruct r as [|c' r'].
      - simpl. apply andb_false_r.
      - exact Hm. }
    change (String c r ++ ". " ++ b)%string
      with (String c (r ++ ". " ++ b))%string.
    cbn [re_split_from]. change (false && is_space c) with false. cbv iota.
    rewrite E, (IH Hr). reflexivity.
Qed.

(** Lines 43-53: a first sentence of 20 to 100 characters (white space at
    its ends not counted) is returned alone and stripped, without its
    closing punctuation, whatever follows it. *)
Theorem extract_long_first_sentence (a b : string) :
  has_boundary a = false ->
  20 <= String.length (strip a) <= 100 ->
  extract_first_sentence (Some (a ++ ". " ++ b)) = strip a.
Proof.
  intros Hb [H20 H100]. unfold extract_first_sentence.
  destruct (String.eqb_spec (a ++ ". " ++ b) "") as [E | _].
  - destruct a; discriminate E.
  - unfold re_split. rewrite (re_split_from_first a b Hb).
    destruct (re_split_from true b) as [p ps].
    destruct (Nat.ltb_spec (String.length (strip a)) 20); [lia|].
    destruct (Nat.ltb_spec 100 (String.length (strip a))); [lia | reflexivity].
Qed.

Lemma extract_long_first_sentence_witness :
  extract_first_sentence
    (Some ("  We are launching a new product today" ++ ". " ++ "Stay tuned! More soon."))
  = "We are launching a new product today".
Proof.
  rewrite (extract_long_first_sentence
             "  We are launching a new product today" "Stay tuned! More soon.").
  - reflexivity.
  - reflexivity.
  - vm_compute. split; lia.
Defined.



(** Lines 50-51: a single sentence of more than 100 characters (white
    space at its ends not counted) is cut to its first 97 characters
    followed by three full stops, 100 characters in all. *)
Theorem extract_truncates_long_sentence (s : string) :
  has_boundary s = false ->
  100 < String.length (strip s) ->
  extract_first_sentence (Some s) = (slice_to 97 (strip s) ++ "...")%string
  /\ String.length (extract_first_sentence (Some s)) = 100.
Proof.
  intros Hb Hl.
  assert (E : extract_first_sentence (Some s)
              = (slice_to 97 (strip s) ++ "...")%string).
  { unfold extract_first_sentence.
    destruct (String.eqb_spec s "") as [-> | _]; [simpl in Hl; lia|].
    unfold re_split. rewrite (no_boundary_single_piece _ Hb).
    destruct (Nat.ltb_spec 100 (String.length (strip s))); [reflexivity | lia]. }
  split; [exact E|]. rewrite E, length_append, length_slice_to.
  change (String.length "...") with 3. lia.
Qed.

Lemma extract_truncates_long_sentence_witness :
  extract_first_sentence
    (Some "Our quarterly results show steady growth across every region we serve and a record number of new customers today")
  = "Our quarterly results show steady growth across every region we serve and a record number of new ..."
  /\ String.length
       (extract_first_sentence
          (Some "Our quarterly results show steady growth across every region we serve and a record number of new customers today"))
     = 100.
Proof.
  destruct (extract_truncates_long_sentence
              "Our quarterly results show steady growth across every region we serve and a record number of new customers today")
    as [E L].
  - reflexivity.
  - vm_compute. lia.
  - split; [rewrite E; reflexivity | exact L].
Defined.

(** ** Data loader *)

Lemma lower_char_space (c : ascii) : is_space (lower_char c) = is_space c.
Proof. destruct c as [[] [] [] [] [] [] [] []]; reflexivity. Qed.

Lemma lower_char_idem (c : ascii) : lower_char (lower_char c) = lower_char c.
Proof. destruct c as [[] [] [] [] [] [] [] []]; reflexivity. Qed.

Lemma lower_idem (s : string) : lower (lower s) = lower s.
Proof.
  induction s as [|c r IH]; simpl; [reflexivity|].
  now rewrite lower_char_idem, IH.
Qed.

Lemma lstrip_lower (s : string) : lstrip (lower s) = lower (lstrip s).
Proof.
  induction s as [|c r IH]; simpl; [reflexivity|].
  rewrite lower_char_space. destruct (is_space c); [exact IH | reflexivity].
Qed.

Lemma rstrip_lower (s : string) : rstrip (lower s) = lower (rstrip s).
Proof.
  induction s as [|c r IH]; simpl; [reflexivity|].
  rewrite IH, lower_char_space.
  destruct (rstrip r); simpl; [destruct (is_space c)|]; reflexivity.
Qed.

Lemma strip_lower (s : string) : strip (lower s) = lower (strip s).
Proof. unfold strip. now rewrite lstrip_lower, rstrip_lower. Qed.

Lemma normalise_label_idem (s : string) :
  strip (lower (strip (lower s))) = strip (lower s).
Proof. now rewrite !strip_lower, lower_idem, strip_idem. Qed.

Lemma normalise_columns_idem (df : DataFrame) :
  normalise_columns (normalise_columns df) = normalise_columns df.
Proof.
  unfold normalise_columns. rewrite map_map. apply map_ext.
  intros [n s]. simpl. now rewrite normalise_label_idem.
Qed.

Lemma labels_setitem (df : DataFrame) (name : string) (s : Series) :
  map fst (setitem df name s)
  = if has_column name df then map fst df else (map fst df ++ [name])%list.
Proof.
  unfold has_column. induction df as [|[n old] rest IH]; simpl; [reflexivity|].
  destruct (n =? name)%string; simpl; [reflexivity|].
  rewrite IH. now destruct (lookup name rest).
Qed.

Lemma well_formed_setitem (n : nat) (df : DataFrame) (name : string) (s : Series) :
  well_formed n df -> series_len s = n -> well_formed n (setitem df name s).
Proof.
  unfold well_formed. intros Hdf Hs.
  induction Hdf as [|[m old] rest Hold Hrest IH]; simpl.
  - constructor; [exact Hs | constructor].
  - destruct (m =? name)%string; constructor; auto.
Qed.

Lemma well_formed_lookup (n : nat) (df : DataFrame) (name : string) (s : Series) :
  well_formed n df -> lookup name df = Some s -> series_len s = n.
Proof.
  unfold well_formed. intros Hdf.
  induction Hdf as [|[m old] rest Hold Hrest IH]; simpl; [discriminate|].
  destruct (m =? name)%string; [|exact IH].
  intros E. inversion E as [E']. rewrite <- E'. exact Hold.
Qed.

Lemma mapM_length {A B : Type} (f : A -> py B) (l : list A) (r : list B) :
  mapM f l = Ret r -> List.length r = List.length l.
Proof.
  revert r. induction l as [|a l IH]; simpl; intros r.
  - intros E. inversion E. reflexivity.
  - destruct (f a); [cbn [bind] | discriminate].
    destruct (mapM f l) as [bs|]; [cbn [bind] | discriminate].
    intros E. inversion E. simpl. f_equal. now apply IH.
Qed.

Section LoaderMore.
Context {pandas : Pandas}.

Lemma all_ints_length (l : list (option number)) (zs : list Z) :
  all_ints l = Some zs -> List.length zs = List.length l.
Proof.
  revert zs. induction l as [|x r IH]; simpl; intros zs.
  - intros E. inversion E. reflexivity.
  - destruct (as_int x); [|discriminate].
    destruct (all_ints r) as [zs'|]; [|discriminate].
    intros E. inversion E. simpl. f_equal. now apply IH.
Qed.

Lemma to_numeric_coerce_numeric (s : Series) :
  is_numeric (to_numeric_coerce s) = true.
Proof.
  destruct s as [l|l|l|l]; simpl; try reflexivity.
  now destruct (all_ints (map coerce_cell l)).
Qed.

Lemma to_numeric_coerce_length (s : Series) :
  series_len (to_numeric_coerce s) = series_len s.
Proof.
  destruct s as [l|l|l|l]; simpl; try reflexivity.
  - destruct (all_ints (map coerce_cell l)) as [zs|] eqn:E; simpl.
    + rewrite (all_ints_length _ _ E). apply length_map.
    + now rewrite !length_map.
  - apply length_map.
Qed.

Lemma to_datetime_datetime (s s' : Series) :
  to_datetime s = Ret s' ->
  is_datetime s' = true /\ series_len s' = series_len s.
Proof.
  destruct s as [l|l|l|l]; simpl.
  - destruct (mapM cell_to_datetime l) as [ts|] eqn:E; [cbn [bind] | discriminate].
    intros H. inversion H. split; [reflexivity|]. simpl.
    now apply (mapM_length _ _ _ E).
  - intros H. inversion H. split; [reflexivity|]. simpl. apply length_map.
  - destruct (mapM float_to_datetime l) as [ts|] eqn:E; [cbn [bind] | discriminate].
    intros H. inversion H. split; [reflexivity|]. simpl.
    now apply (mapM_length _ _ _ E).
  - intros H. inversion H. split; reflexivity.
Qed.

Lemma series_texts_length (s : Series) :
  List.length (series_texts s) = series_len s.
Proof. destruct s; simpl; apply length_map. Qed.

Lemma apply_extract_length (s : Series) :
  series_len (apply_extract s) = series_len s.
Proof.
  unfold apply_extract. simpl. now rewrite length_map, series_texts_length.
Qed.

Lemma apply_extract_texts (s : Series) : texts_within 100 (apply_extract s).
Proof.
  unfold apply_extract. eexists. split; [reflexivity|].
  apply Forall_forall. intros c Hc. apply in_map_iff in Hc.
  destruct Hc as [t [<- _]]. eexists. split; [reflexivity|].
  apply length_extract.
Qed.

(** What a conversion under [if name in df.columns] leaves behind. *)
Lemma convert_if_present_inv (name : string) (f : Series -> py Series)
  (d d' : DataFrame) :
  convert_if_present name f d = Ret d' ->
  map fst d' = map fst d
  /\ (forall other, other <> name -> lookup other d' = lookup other d)
  /\ match lookup name d with
     | Some s => exists s', f s = Ret s' /\ lookup name d' = Some s'
                            /\ d' = setitem d name s'
     | None => d' = d
     end.
Proof.
  unfold convert_if_present. destruct (lookup name d) as [s|] eqn:Hl.
  - destruct (f s) as [s'|] eqn:Hf; [cbn [bind] | discriminate].
    intros E. inversion E; subst d'. split; [|split].
    + rewrite labels_setitem. unfold has_column. now rewrite Hl.
    + intros other Hne. now apply lookup_setitem_other.
    + exists s'. split; [reflexivity|]. split; [apply lookup_setitem_same | reflexivity].
  - intros E. inversion E; subst d'. split; [reflexivity|]. split; reflexivity.
Qed.

Lemma convert_if_present_well_formed (name : string) (f : Series -> py Series)
  (n : nat) (d d' : DataFrame) :
  (forall s s', f s = Ret s' -> series_len s' = series_len s) ->
  well_formed n d -> convert_if_present name f d = Ret d' -> well_formed n d'.
Proof.
  intros Hf Hd H. destruct (convert_if_present_inv _ _ _ _ H) as [_ [_ Hn]].
  destruct (lookup name d) as [s|] eqn:Hl; [|now subst].
  destruct Hn as [s' [Hs' [_ ->]]]. apply well_formed_setitem; [exact Hd|].
  rewrite (Hf _ _ Hs'). exact (well_formed_lookup _ _ _ _ Hd Hl).
Qed.

(** The steps behind a table the loader returns. *)
Lemma load_table_inv (df loaded : DataFrame) :
  load_and_process_data (Ret df) = Table loaded ->
  exists title d1 d2 d3,
    lookup "post title" (normalise_columns df) = Some title
    /\ convert_if_present "created date" to_datetime
         (setitem (normalise_columns df) "post title (first sentence)"
            (apply_extract title)) = Ret d1
    /\ convert_if_present "engagement rate"
         (fun s => Ret (to_numeric_coerce s)) d1 = Ret d2
    /\ convert_if_present "click through rate (ctr)"
         (fun s => Ret (to_numeric_coerce s)) d2 = Ret d3
    /\ convert_if_present "impressions"
         (fun s => Ret (to_numeric_coerce s)) d3 = Ret loaded.
Proof.
  unfold load_and_process_data, load_body. cbn [bind].
  unfold has_column, getitem.
  destruct (lookup "post title" (normalise_columns df)) as [title|];
    [cbn [negb bind] | cbn [negb]; discriminate].
  destruct (convert_if_present "created date" to_datetime _) as [d1|] eqn:E1;
    [cbn [bind] | discriminate].
  destruct (convert_if_present "engagement rate" _ d1) as [d2|] eqn:E2;
    [cbn [bind] | discriminate].
  destruct (convert_if_present "click through rate (ctr)" _ d2) as [d3|] eqn:E3;
    [cbn [bind] | discriminate].
  destruct (convert_if_present "impressions" _ d3) as [d4|] eqn:E4;
    [cbn [bind] | discriminate].
  intros E. inversion E; subst d4.
  exists title, d1, d2, d3. repeat split; assumption.
Qed.

End LoaderMore.

Lemma convert_numeric_lookup {pandas : Pandas} (name : string) (d d' : DataFrame) :
  convert_if_present name (fun s => Ret (to_numeric_coerce s)) d = Ret d' ->
  forall s, lookup name d' = Some s -> is_numeric s = true.
Proof.
  intros H s Hs. destruct (convert_if_present_inv _ _ _ _ H) as [_ [_ Hn]].
  destruct (lookup name d) as [old|] eqn:Hl.
  - destruct Hn as [s' [Hs' [Hl' _]]]. inversion Hs'; subst s'.
    rewrite Hl' in Hs. inversion Hs. apply to_numeric_coerce_numeric.
  - subst d'. congruence.
Qed.

Lemma well_formed_normalise (n : nat) (df : DataFrame) :
  well_formed n df -> well_formed n (normalise_columns df).
Proof.
  unfold well_formed, normalise_columns. intros H.
  apply Forall_map. simpl. exact H.
Qed.

(** Lines 69-87: in every table the loader returns, the three metric
    columns that are present are numeric, the date column if present is a
    datetime column, the title column is still there, and the title summary
    column holds a text of at most 100 characters in every row. *)
Theorem loaded_table_schema {pandas : Pandas} (df loaded : DataFrame) :
  load_and_process_data (Ret df) = Table loaded ->
  metric_columns_numeric loaded
  /\ (forall s, lookup "created date" loaded = Some s -> is_datetime s = true)
  /\ has_column "post title" loaded = true
  /\ (exists s, lookup "post title (first sentence)" loaded = Some s
                /\ texts_within 100 s).
Proof.
  intros H. destruct (load_table_inv df loaded H)
    as [title [d1 [d2 [d3 [Ht [E1 [E2 [E3 E4]]]]]]]].
  destruct (convert_if_present_inv _ _ _ _ E1) as [_ [O1 N1]].
  destruct (convert_if_present_inv _ _ _ _ E2) as [_ [O2 _]].
  destruct (convert_if_present_inv _ _ _ _ E3) as [_ [O3 _]].
  destruct (convert_if_present_inv _ _ _ _ E4) as [_ [O4 _]].
  split; [|split; [|split]].
  - intros name s Hin Hs. simpl in Hin.
    destruct Hin as [<- | [<- | [<- | []]]].
    + rewrite O4, O3 in Hs by discriminate.
      exact (convert_numeric_lookup _ _ _ E2 s Hs).
    + rewrite O4 in Hs by discriminate.
      exact (convert_numeric_lookup _ _ _ E3 s Hs).
    + exact (convert_numeric_lookup _ _ _ E4 s Hs).
  - intros s Hs. rewrite O4, O3, O2 in Hs by discriminate.
    destruct (lookup "created date"
                (setitem (normalise_columns df) "post title (first sentence)"
                   (apply_extract title))) as [old|] eqn:Hl.
    + destruct N1 as [s' [Hs' [Hl' _]]]. rewrite Hl' in Hs.
      inversion Hs; subst s'. exact (proj1 (to_datetime_datetime _ _ Hs')).
    + subst d1. congruence.
  - unfold has_column.
    rewrite O4, O3, O2, O1, lookup_setitem_other, Ht by discriminate.
    reflexivity.
  - exists (apply_extract title). split; [|apply apply_extract_texts].
    rewrite O4, O3, O2, O1 by discriminate. apply lookup_setitem_same.
Qed.

Lemma loaded_table_schema_witness :
  exists loaded,
    load_and_process_data (pandas := example_pandas) (Ret sheet_with_bad_rate)
    = Table loaded
    /\ metric_columns_numeric loaded
    /\ lookup "engagement rate" loaded
       = Some (Float64Series [Some (5 # 100)%Q; None]).
Proof.
  eexists. split; [reflexivity|]. split; [|reflexivity].
  exact (proj1 (loaded_table_schema (pandas := example_pandas)
                  sheet_with_bad_rate _ eq_refl)).
Defined.

(** Lines 62-87: loading keeps the rows: when every column of the sheet
    has [n] rows, so has every column of the loaded table, and [len] of the
    loaded table is [n]. *)
Theorem loaded_table_keeps_rows {pandas : Pandas} (n : nat) (df loaded : DataFrame) :
  well_formed n df ->
  load_and_process_data (Ret df) = Table loaded ->
  well_formed n loaded /\ len loaded = n.
Proof.
  intros Hdf H. destruct (load_table_inv df loaded H)
    as [title [d1 [d2 [d3 [Ht [E1 [E2 [E3 E4]]]]]]]].
  assert (Hn : forall s s', Ret (to_numeric_coerce s) = Ret s' ->
                            series_len s' = series_len s).
  { intros s s' E. inversion E. apply to_numeric_coerce_length. }
  assert (W0 : well_formed n (normalise_columns df))
    by now apply well_formed_normalise.
  assert (W : well_formed n loaded).
  { eapply convert_if_present_well_formed; [exact Hn | | exact E4].
    eapply convert_if_present_well_formed; [exact Hn | | exact E3].
    eapply convert_if_present_well_formed; [exact Hn | | exact E2].
    eapply convert_if_present_well_formed; [ | | exact E1].
    - intros s s' Hs. exact (proj2 (to_datetime_datetime _ _ Hs)).
    - apply well_formed_setitem; [exact W0|].
      rewrite apply_extract_length.
      exact (well_formed_lookup _ _ _ _ W0 Ht). }
  split; [exact W|].
  destruct (loaded_table_schema df loaded H) as [_ [_ [Hc _]]].
  unfold has_column in Hc. destruct loaded as [|[m s] rest]; [discriminate|].
  inversion W as [|? ? Hs _]. exact Hs.
Qed.

Lemma loaded_table_keeps_rows_witness :
  exists loaded,
    load_and_process_data (pandas := example_pandas) (Ret example_sheet)
    = Table loaded
    /\ well_formed 3 loaded /\ len loaded = 3.
Proof.
  eexists. split; [reflexivity|].
  apply (loaded_table_keeps_rows (pandas := example_pandas) 3 example_sheet).
  - repeat constructor.
  - reflexivity.
Defined.

(** Lines 62-70: the labels of a loaded table are the labels of the sheet
    in lower case and without surrounding white space, in the order of the
    sheet, followed by the title summary column when the sheet had no
    column of that name; a sheet and its normalised form load alike. *)
Theorem loaded_table_labels {pandas : Pandas} (df loaded : DataFrame) :
  load_and_process_data (Ret df) = Table loaded ->
  map fst loaded
  = (map (fun c => strip (lower (fst c))) df
     ++ (if has_column "post title (first sentence)" (normalise_columns df)
         then [] else ["post title (first sentence)"]))%list
  /\ load_and_process_data (Ret (normalise_columns df)) = Table loaded.
Proof.
  intros H. split.
  - destruct (load_table_inv df loaded H)
      as [title [d1 [d2 [d3 [Ht [E1 [E2 [E3 E4]]]]]]]].
    destruct (convert_if_present_inv _ _ _ _ E1) as [L1 _].
    destruct (convert_if_present_inv _ _ _ _ E2) as [L2 _].
    destruct (convert_if_present_inv _ _ _ _ E3) as [L3 _].
    destruct (convert_if_present_inv _ _ _ _ E4) as [L4 _].
    rewrite L4, L3, L2, L1, labels_setitem.
    assert (E : map fst (normalise_columns df)
                = map (fun c => strip (lower (fst c))) df).
    { unfold normalise_columns. rewrite map_map. reflexivity. }
    rewrite E.
    destruct (has_column "post title (first sentence)" (normalise_columns df));
      [now rewrite app_nil_r | reflexivity].
  - rewrite <- H. unfold load_and_process_data, load_body. cbn [bind].
    now rewrite normalise_columns_idem.
Qed.

Lemma loaded_table_labels_witness :
  exists loaded,
    load_and_process_data (pandas := example_pandas) (Ret sheet_with_bad_rate)
    = Table loaded
    /\ map fst loaded
       = ["post title"; "engagement rate"; "post title (first sentence)"].
Proof.
  eexists. split; [reflexivity|].
  exact (proj1 (loaded_table_labels (pandas := example_pandas)
                  sheet_with_bad_rate _ eq_refl)).
Defined.

(** Lines 64-67: the loader reports the missing title column, and returns
    no table, exactly when no label of the sheet reads [post title] once
    lowered and stripped. *)
Theorem load_reports_missing_title {pandas : Pandas} (df : DataFrame) :
  load_and_process_data (Ret df) = NoTable title_not_found
  <-> has_column "post title" (normalise_columns df) = false.
Proof.
  unfold load_and_process_data, load_body. cbn [bind]. split.
  - destruct (has_column "post title" (normalise_columns df)) eqn:Hc;
      [|reflexivity].
    cbn [negb].
    match goal with |- match ?m with Ret _ => _ | Raise _ => _ end = _ -> _ =>
      destruct m as [[loaded | message] | e] eqn:E end.
    + discriminate.
    + exfalso. revert E. unfold getitem, has_column in *.
      destruct (lookup "post title" (normalise_columns df)); [|discriminate].
      cbn [bind].
      repeat match goal with
             | |- (x <- ?m ;; _) = _ -> _ => destruct m; cbn [bind]
             end; discriminate.
    + intros H. inversion H.
  - intros ->. reflexivity.
Qed.



(** Lines 93-98 after lines 55-91: the summariser does not fail on a table
    the loader returned, and it counts the rows of that table. *)
Theorem summary_returns_on_loaded_table {pandas : Pandas} (df loaded : DataFrame) :
  load_and_process_data (Ret df) = Table loaded ->
  exists m, summary_values loaded = Ret m
            /\ total_posts m = len loaded
            /\ create_summary_metrics loaded = Ret (metric_cards m).
Proof.
  intros H. destruct (loaded_table_schema df loaded H) as [Hn _].
  destruct (average_percent_returns "engagement rate" loaded) as [a [Ha _]];
    [simpl; tauto | exact Hn |].
  destruct (average_percent_returns "click through rate (ctr)" loaded)
    as [c [Hc _]]; [simpl; tauto | exact Hn |].
  destruct (impressions_total_returns loaded Hn) as [t [Ht _]].
  unfold create_summary_metrics, summary_values. rewrite Ha, Hc, Ht. cbn [bind].
  eexists. split; [reflexivity|]. split; reflexivity.
Qed.

Lemma summary_returns_on_loaded_table_witness :
  exists m,
    create_summary_metrics
      (match load_and_process_data (pandas := example_pandas) (Ret example_sheet)
       with Table loaded => loaded | NoTable _ => [] end)
    = Ret (metric_cards m)
    /\ total_posts m = 3.
Proof.
  destruct (summary_returns_on_loaded_table (pandas := example_pandas)
              example_sheet _ eq_refl) as [m [_ [Hp Hc]]].
  exists m. split; [exact Hc | exact Hp].
Defined.


(** ** Metrics summariser *)





(** Lines 95-98: on a table without any of the three metric columns the
    cards show the number of rows, zero impressions and two zero
    averages. *)
Theorem summary_without_metric_columns (df : DataFrame) :
  has_column "engagement rate" df = false ->
  has_column "click through rate (ctr)" df = false ->
  has_column "impressions" df = false ->
  create_summary_metrics df
  = Ret [ ("Total Posts", format_comma (Int (Z.of_nat (len df))));
          ("Total Impressions", "0");
          ("Avg Engagement Rate", "0.00%");
          ("Avg Click-Through Rate", "0.00%") ].
Proof.
  intros He Hc Hi.
  unfold create_summary_metrics, summary_values, average_percent,
    impressions_total.
  rewrite He, Hc, Hi. reflexivity.
Qed.

Lemma summary_without_metric_columns_witness :
  create_summary_metrics (one_title "Hello")
  = Ret [ ("Total Posts", "1");
          ("Total Impressions", "0");
          ("Avg Engagement Rate", "0.00%");
          ("Avg Click-Through Rate", "0.00%") ].
Proof.
  rewrite (summary_without_metric_columns (one_title "Hello"));
    reflexivity.
Defined.

(** ** Chart builders *)

Lemma bind_ret_inv {A B : Type} (m : py A) (k : A -> py B) (v : B) :
  (x <- m ;; k x) = Ret v -> exists a, m = Ret a /\ k a = Ret v.
Proof. destruct m as [a|e]; simpl; [eauto | discriminate]. Qed.

(** Lines 128-129, 162-163 and 193-194: a builder returns the no-chart
    value exactly when the column it checks is absent; with that column
    present it returns a chart or raises. *)
Theorem chart_sentinel_iff_guard_absent (df : DataFrame) :
  (create_engagement_trend_chart df = Ret None
   <-> has_column "created date" df = false)
  /\ (forall metric top_n,
        create_top_posts_chart df metric top_n = Ret None
        <-> has_column metric df = false)
  /\ (create_scatter_plot df = Ret None
      <-> has_column "impressions" df = false
          \/ has_column "engagement rate" df = false).
Proof.
  split; [|split].
  - unfold create_engagement_trend_chart.
    destruct (has_column "created date" df); cbn [negb];
      split; try reflexivity; try discriminate.
    intros H.
    apply bind_ret_inv in H. destruct H as [? [_ H]].
    apply bind_ret_inv in H. destruct H as [? [_ H]].
    apply bind_ret_inv in H. destruct H as [? [_ H]].
    apply bind_ret_inv in H. destruct H as [? [_ H]].
    apply bind_ret_inv in H. destruct H as [? [_ H]].
    discriminate H.
  - intros metric top_n. unfold create_top_posts_chart.
    destruct (has_column metric df); cbn [negb];
      split; try reflexivity; try discriminate.
    intros H.
    apply bind_ret_inv in H. destruct H as [? [_ H]].
    apply bind_ret_inv in H. destruct H as [? [_ H]].
    apply bind_ret_inv in H. destruct H as [? [_ H]].
    apply bind_ret_inv in H. destruct H as [? [_ H]].
    discriminate H.
  - unfold create_scatter_plot.
    destruct (has_column "impressions" df);
      destruct (has_column "engagement rate" df); cbn [negb orb];
      split; try reflexivity; try tauto; try (intros [H | H]; discriminate H).
    intros H.
    apply bind_ret_inv in H. destruct H as [? [_ H]].
    apply bind_ret_inv in H. destruct H as [? [_ H]].
    apply bind_ret_inv in H. destruct H as [? [_ H]].
    discriminate H.
Qed.

(** *** The trend builder *)

Lemma add_to_group_keys (key : Z) (i : nat) (gs : list (Z * list nat)) (d : Z) :
  In d (map fst (add_to_group key i gs)) <-> d = key \/ In d (map fst gs).
Proof.
  induction gs as [|[k ps] rest IH]; simpl; [intuition auto|].
  destruct (Z.ltb_spec key k); simpl; [intuition auto|].
  destruct (Z.eqb_spec key k); simpl; [subst; intuition auto|].
  rewrite IH. intuition auto.
Qed.

Lemma add_to_group_sorted (key : Z) (i : nat) (gs : list (Z * list nat)) :
  StronglySorted Z.lt (map fst gs) ->
  StronglySorted Z.lt (map fst (add_to_group key i gs)).
Proof.
  induction gs as [|[k ps] rest IH]; simpl; intros Hs.
  - constructor; constructor.
  - inversion Hs as [|? ? Hrest Hk]; subst.
    destruct (Z.ltb_spec key k); simpl.
    + constructor; [exact Hs|]. constructor; [exact H|].
      rewrite Forall_forall in *. intros w Hw. specialize (Hk w Hw). lia.
    + destruct (Z.eqb_spec key k); simpl; [exact Hs|].
      constructor; [now apply IH|].
      rewrite Forall_forall in *. intros w Hw.
      apply add_to_group_keys in Hw. destruct Hw as [-> | Hw]; [lia | auto].
Qed.

Lemma group_positions_keys (keys : list (option Z)) (i : nat)
  (gs : list (Z * list nat)) (d : Z) :
  In d (map fst (group_positions i keys gs))
  <-> In d (map fst gs) \/ In (Some d) keys.
Proof.
  revert i gs. induction keys as [|[k|] r IH]; intros i gs; simpl.
  - tauto.
  - rewrite IH, add_to_group_keys. split.
    + intros [[-> | H] | H]; auto.
    + intros [H | [H | H]]; auto. inversion H. auto.
  - rewrite IH. split; [tauto|]. intros [H | [H | H]]; auto. discriminate.
Qed.

Lemma group_positions_sorted (keys : list (option Z)) (i : nat)
  (gs : list (Z * list nat)) :
  StronglySorted Z.lt (map fst gs) ->
  StronglySorted Z.lt (map fst (group_positions i keys gs)).
Proof.
  revert i gs. induction keys as [|[k|] r IH]; intros i gs Hs; simpl.
  - exact Hs.
  - apply IH. now apply add_to_group_sorted.
  - now apply IH.
Qed.

Lemma mapM_returns {A B : Type} (f : A -> py B) (l : list A) :
  (forall a, exists b, f a = Ret b) ->
  exists bs, mapM f l = Ret bs /\ List.length bs = List.length l.
Proof.
  intros H. induction l as [|a r [bs [E L]]]; simpl.
  - exists []. split; reflexivity.
  - destruct (H a) as [b ->]. cbn [bind]. rewrite E. cbn [bind].
    exists (b :: bs). split; [reflexivity | simpl; congruence].
Qed.

Lemma agg_series_numeric (f : aggfunc) (groups : list (list nat)) (s : Series) :
  is_numeric s = true ->
  exists l, agg_series f groups s = Ret (Float64Series l)
            /\ List.length l = List.length groups.
Proof.
  intros Hn. destruct f; unfold agg_series.
  - destruct (mapM_returns (fun ps => mean (series_take ps s)) groups)
      as [ms [E L]].
    { intros ps. destruct s; try discriminate; simpl; eauto. }
    rewrite E. cbn [bind]. eexists. split; [reflexivity|].
    now rewrite length_map.
  - destruct (mapM_returns (fun ps => sum (series_take ps s)) groups)
      as [ts [E L]].
    { intros ps. destruct s; try discriminate; simpl; eauto. }
    rewrite E. cbn [bind]. eexists. split; [reflexivity|].
    now rewrite length_map.
Qed.

(** Lines 131-147: on a table with a datetime date column and the three
    metric columns, all numeric, the trend builder returns a line with one
    point for each calendar day that occurs in the date column, the days in
    strictly ascending order; rows without a date add no point. *)
Theorem trend_chart_one_point_per_day
  (df : DataFrame) (created : list (option Z)) (rate imps ctr : Series) :
  lookup "created date" df = Some (DatetimeSeries created) ->
  lookup "engagement rate" df = Some rate -> is_numeric rate = true ->
  lookup "impressions" df = Some imps -> is_numeric imps = true ->
  lookup "click through rate (ctr)" df = Some ctr -> is_numeric ctr = true ->
  exists x ys,
    create_engagement_trend_chart df
    = Ret (Some (LineFigure "Engagement Rate Trend Over Time" x
                   (Float64Series ys)))
    /\ StronglySorted Z.lt x
    /\ List.length ys = List.length x
    /\ (forall d, In d x <-> exists ns, In (Some ns) created /\ date_of ns = d).
Proof.
  intros Hd He Hne Hi Hni Hc Hnc.
  unfold create_engagement_trend_chart, has_column, getitem.
  rewrite Hd. cbn [negb bind dt_date].
  set (keys := map (option_map date_of) created).
  unfold groupby_agg, has_column. cbn [filter fst snd].
  rewrite He, Hi, Hc. cbn [negb].
  set (groups := group_positions 0 keys []).
  unfold mapM, getitem. cbn [fst snd]. rewrite He, Hi, Hc. cbn [bind].
  destruct (agg_series_numeric AggMean (map snd groups) rate Hne) as [l1 [E1 L1]].
  destruct (agg_series_numeric AggSum (map snd groups) imps Hni) as [l2 [E2 _]].
  destruct (agg_series_numeric AggMean (map snd groups) ctr Hnc) as [l3 [E3 _]].
  rewrite E1, E2, E3. cbn [bind fst snd lookup String.eqb Ascii.eqb Bool.eqb].
  cbn [series_times100 bind].
  do 2 eexists. split; [reflexivity|]. split; [|split].
  - apply group_positions_sorted. constructor.
  - now rewrite !length_map in *.
  - intros d. unfold groups. rewrite group_positions_keys. simpl.
    unfold keys. rewrite in_map_iff. split.
    + intros [[] | [[ns|] [E H]]]; [|discriminate E].
      simpl in E. inversion E. eauto.
    + intros [ns [H E]]. right. exists (Some ns). split; [|exact H].
      simpl. now rewrite E.
Qed.

Lemma trend_chart_one_point_per_day_witness :
  exists ys,
    create_engagement_trend_chart
      [ ("created date",
         DatetimeSeries [Some 1700100000000000000; None;
                         Some 1700000000000000000; Some 1700000000000000001]%Z);
        ("engagement rate",
         Float64Series [Some (1 # 10); Some (1 # 2); Some (2 # 10); Some (4 # 10)]%Q);
        ("impressions", Int64Series [1; 2; 3; 4]%Z);
        ("click through rate (ctr)", Float64Series [None; None; None; None]) ]
    = Ret (Some (LineFigure "Engagement Rate Trend Over Time"
                   [19675; 19677]%Z (Float64Series ys)))
    /\ List.length ys = 2.
Proof.
  destruct (trend_chart_one_point_per_day
              [ ("created date",
                 DatetimeSeries [Some 1700100000000000000; None;
                                 Some 1700000000000000000;
                                 Some 1700000000000000001]%Z);
                ("engagement rate",
                 Float64Series [Some (1 # 10); Some (1 # 2); Some (2 # 10);
                                Some (4 # 10)]%Q);
                ("impressions", Int64Series [1; 2; 3; 4]%Z);
                ("click through rate (ctr)",
                 Float64Series [None; None; None; None]) ]
              [Some 1700100000000000000; None; Some 1700000000000000000;
               Some 1700000000000000001]%Z
              (Float64Series [Some (1 # 10); Some (1 # 2); Some (2 # 10);
                              Some (4 # 10)]%Q)
              (Int64Series [1; 2; 3; 4]%Z)
              (Float64Series [None; None; None; None]))
    as [x [ys [E [_ [L _]]]]]; try reflexivity.
  vm_compute in E. inversion E; subst. eexists. split; [reflexivity|].
  reflexivity.
Defined.

(** *** The ranking builder: rows are selected once *)

Lemma positions_range (vals : list (option Q)) (k i : nat) :
  In i (map fst (valid_positions k vals) ++ nan_positions k vals) ->
  k <= i < k + List.length vals.
Proof.
  revert k. induction vals as [|[q|] r IH]; intros k; simpl.
  - intros [].
  - intros [<- | H]; [lia|]. specialize (IH (S k) H). lia.
  - intros H. apply in_app_or in H. destruct H as [H | [<- | H]]; [| lia |].
    + assert (H' : In i (map fst (valid_positions (S k) r)
                         ++ nan_positions (S k) r))
        by (apply in_or_app; now left).
      specialize (IH (S k) H'). lia.
    + assert (H' : In i (map fst (valid_positions (S k) r)
                         ++ nan_positions (S k) r))
        by (apply in_or_app; now right).
      specialize (IH (S k) H'). lia.
Qed.

Lemma positions_nodup (vals : list (option Q)) (k : nat) :
  NoDup (map fst (valid_positions k vals) ++ nan_positions k vals).
Proof.
  revert k. induction vals as [|[q|] r IH]; intros k; simpl.
  - constructor.
  - constructor; [|apply IH].
    intros H. apply positions_range in H. lia.
  - apply (@NoDup_incl_NoDup _
             (k :: map fst (valid_positions (S k) r) ++ nan_positions (S k) r)).
    + constructor; [|apply IH].
      intros H. apply positions_range in H. lia.
    + rewrite !length_app. simpl. rewrite length_app. lia.
    + intros x [<- | H]; apply in_or_app.
      * right. now left.
      * apply in_app_or in H. destruct H; [now left | right; now right].
Qed.

Lemma nlargest_positions_distinct (n : nat) (vals : list (option Q)) :
  NoDup (nlargest_positions n vals)
  /\ forall i, In i (nlargest_positions n vals) -> i < List.length vals.
Proof.
  unfold nlargest_positions.
  set (A := (map fst (sort_desc (valid_positions 0 vals))
             ++ nan_positions 0 vals)%list).
  set (B := (map fst (valid_positions 0 vals) ++ nan_positions 0 vals)%list).
  assert (Hincl : forall x, In x A <-> In x B).
  { intros x. unfold A, B. rewrite !in_app_iff, !in_map_iff.
    split; (intros [[p [E H]] | H]; [left; exists p; split; [exact E|] | now right]).
    - exact (proj1 (sort_desc_In p _) H).
    - exact (proj2 (sort_desc_In p _) H). }
  assert (HA : NoDup A).
  { apply (@NoDup_incl_NoDup _ B); [apply positions_nodup | |].
    - unfold A, B. rewrite !length_app, !length_map, sort_desc_length. lia.
    - intros x Hx. now apply Hincl. }
  split.
  - rewrite <- (firstn_skipn n A) in HA. exact (NoDup_app_remove_r _ _ HA).
  - intros i Hi.
    assert (Hi' : In i A).
    { rewrite <- (firstn_skipn n A). apply in_or_app. now left. }
    apply Hincl in Hi'. apply positions_range in Hi'. lia.
Qed.

(** Lines 166-182: the ranking chart is made of rows of the table, each
    taken once: the rows of its data are the rows of the table at positions
    that are pairwise distinct and within the table. *)
Theorem top_posts_chart_rows_distinct
  (df : DataFrame) (metric : string) (top_n : nat) (s titles imps : Series) :
  lookup metric df = Some s ->
  is_numeric s = true ->
  lookup "post title (first sentence)" df = Some titles ->
  lookup "impressions" df = Some imps ->
  metric <> "impressions" ->
  metric <> "post title (first sentence)" ->
  exists fig ps,
    create_top_posts_chart df metric top_n = Ret (Some fig)
    /\ lookup "post title (first sentence)" (figure_data fig)
       = Some (series_take ps titles)
    /\ lookup metric (figure_data fig) = Some (series_take ps s)
    /\ lookup "impressions" (figure_data fig) = Some (series_take ps imps)
    /\ NoDup ps
    /\ (forall i, In i ps -> i < series_len s).
Proof.
  intros Hm Hn Ht Hi Hne1 Hne2.
  destruct (top_posts_chart_figure df metric top_n s titles imps
              Hm Hn Ht Hi Hne1 Hne2)
    as [title [data [x [xs [Hfig [Hlt [Hlm [Hli _]]]]]]]].
  destruct (nlargest_positions_distinct top_n (numeric_values s)) as [Hd Hr].
  eexists. exists (nlargest_positions top_n (numeric_values s)).
  split; [exact Hfig|]. simpl figure_data.
  repeat split; try assumption.
  intros i Hin. rewrite <- (numeric_values_length s Hn). now apply Hr.
Qed.

Lemma top_posts_chart_rows_distinct_witness :
  exists fig,
    create_top_posts_chart four_posts "engagement rate" 3 = Ret (Some fig)
    /\ lookup "post title (first sentence)" (figure_data fig)
       = Some (ObjectSeries [Text "B"; Text "D"; Text "A"]).
Proof.
  destruct (top_posts_chart_rows_distinct four_posts "engagement rate" 3
              (Float64Series
                 [Some (5 # 10); Some (9 # 10); Some (2 # 10); Some (7 # 10)]%Q)
              (ObjectSeries [Text "A"; Text "B"; Text "C"; Text "D"])
              (Int64Series [10; 20; 30; 40]%Z))
    as [fig [ps [Hfig _]]]; try reflexivity; try discriminate.
  exists fig. split; [exact Hfig|].
  vm_compute in Hfig. inversion Hfig. reflexivity.
Defined.

(** ** Filters of the side bar *)









Lemma mask_list_length {A B : Type} (mask : list bool) (l : list A) (l' : list B) :
  List.length l = List.length l' ->
  List.length (mask_list mask l) = List.length (mask_list mask l').
Proof.
  revert l l'. induction mask as [|b m IH]; intros [|a r] [|a' r'] H;
    simpl in *; try reflexivity; try discriminate.
  destruct b; simpl; rewrite (IH r r'); auto.
Qed.

Lemma mask_list_shorter {A : Type} (mask : list bool) (l : list A) :
  List.length (mask_list mask l) <= List.length l.
Proof.
  revert l. induction mask as [|b m IH]; intros [|a r]; simpl; try lia.
  specialize (IH r). destruct b; simpl; lia.
Qed.

Lemma series_mask_length (mask : list bool) (s : Series) (n : nat) :
  series_len s = n ->
  series_len (series_mask mask s)
  = List.length (mask_list mask (repeat tt n)).
Proof.
  intros H. destruct s; simpl in *; apply mask_list_length;
    now rewrite repeat_length.
Qed.

Lemma frame_mask_shape (mask : list bool) (n : nat) (df : DataFrame) :
  well_formed n df ->
  map fst (frame_mask mask df) = map fst df
  /\ exists m, m <= n /\ well_formed m (frame_mask mask df).
Proof.
  intros Hdf. split.
  - unfold frame_mask. rewrite map_map. reflexivity.
  - exists (List.length (mask_list mask (repeat tt n))). split.
    + pose proof (mask_list_shorter mask (repeat tt n)) as H.
      now rewrite repeat_length in H.
    + unfold well_formed, frame_mask in *. apply Forall_map. simpl.
      eapply Forall_impl; [|exact Hdf]. intros [name s] Hs. simpl in *.
      now apply series_mask_length.
Qed.

(** Lines 235-254: the filters of the side bar drop rows and nothing else:
    the filtered table has the columns of the table in the same order, all
    of one length that is not above the number of rows before. *)
Theorem sidebar_filters_keep_shape (st : session) (n : nat) (df df' : DataFrame) :
  well_formed n df ->
  sidebar_filters st df = Ret df' ->
  map fst df' = map fst df
  /\ exists m, m <= n /\ well_formed m df'.
Proof.
  intros Hdf. unfold sidebar_filters. intros H.
  apply bind_ret_inv in H. destruct H as [d1 [H1 H2]].
  assert (S1 : map fst d1 = map fst df
               /\ exists m, m <= n /\ well_formed m d1).
  { revert H1. unfold filter_post_type.
    destruct (has_column "post type" df);
      [|intros E; inversion E; subst; split; [reflexivity | eauto]].
    destruct (negb (cell_eqb (selected_post_type st) (Text "All")));
      [|intros E; inversion E; subst; split; [reflexivity | eauto]].
    intros E. apply bind_ret_inv in E. destruct E as [s [_ E]].
    inversion E. now apply frame_mask_shape. }
  destruct S1 as [L1 [m1 [Hm1 W1]]].
  revert H2. unfold filter_date_range.
  destruct (has_column "created date" d1);
    [|intros E; inversion E; subst; split; [exact L1 | eauto]].
  intros E. apply bind_ret_inv in E. destruct E as [s [_ E]].
  apply bind_ret_inv in E. destruct E as [days [_ E]].
  destruct (date_range st) as [|a [|b [|c r]]];
    try (inversion E; subst; split; [exact L1 | eauto]).
  inversion E.
  destruct (frame_mask_shape (map (in_range a b) days) m1 d1 W1)
    as [L2 [m2 [Hm2 W2]]].
  split; [congruence|]. exists m2. split; [lia | exact W2].
Qed.

Lemma sidebar_filters_keep_shape_witness :
  exists df',
    sidebar_filters
      {| uploaded_file := None; selected_post_type := Text "Organic";
         date_range := []; search_term := ""; now := "" |}
      [ ("post type", ObjectSeries [Text "Organic"; Text "Sponsored"]);
        ("impressions", Int64Series [10; 20]%Z) ]
    = Ret df'
    /\ map fst df' = ["post type"; "impressions"]
    /\ well_formed 1 df'.
Proof.
  eexists. split; [reflexivity|].
  destruct (sidebar_filters_keep_shape
              {| uploaded_file := None; selected_post_type := Text "Organic";
                 date_range := []; search_term := ""; now := "" |}
              2
              [ ("post type", ObjectSeries [Text "Organic"; Text "Sponsored"]);
                ("impressions", Int64Series [10; 20]%Z) ]
              _ ltac:(repeat constructor) eq_refl) as [L _].
  split; [exact L | repeat constructor].
Defined.


(** ** Insights *)

Lemma argmax_from_largest (best : nat * Q) (l : list (nat * Q)) :
  exists v, In (argmax_from best l, v) (best :: l)
            /\ forall p, In p (best :: l) -> (snd p <= v)%Q.
Proof.
  revert best. induction l as [|x r IH]; intros best; simpl.
  - exists (snd best). split; [left; now destruct best|].
    intros p [<- | []]. apply Qle_refl.
  - set (best' := if Qle_bool (snd x) (snd best) then best else x).
    destruct (IH best') as [v [Hin Hmax]]. exists v.
    assert (Hb : (snd best <= snd best')%Q /\ (snd x <= snd best')%Q
                 /\ (best' = best \/ best' = x)).
    { unfold best'. destruct (Qle_bool (snd x) (snd best)) eqn:E.
      - apply Qle_bool_iff in E. split; [apply Qle_refl|]. split; [exact E | now left].
      - apply Qle_bool_false in E. split; [exact E|].
        split; [apply Qle_refl | now right]. }
    destruct Hb as [Hb1 [Hb2 Hb3]]. split.
    + simpl in Hin. destruct Hin as [Hin | Hin]; [|now right; right].
      destruct Hb3 as [E | E];
        [left | right; left]; rewrite <- E; exact Hin.
    + assert (Hv : (snd best' <= v)%Q) by (apply Hmax; now left).
      intros p [<- | [<- | Hp]].
      * now apply Qle_trans with (snd best').
      * now apply Qle_trans with (snd best').
      * apply Hmax. now right.
Qed.

Lemma order_values_numeric (s : Series) :
  is_numeric s = true -> order_values s = numeric_values s.
Proof. destruct s; simpl; try discriminate; reflexivity. Qed.

Lemma cell_of_value (s : Series) (i : nat) (v : Q) :
  is_numeric s = true ->
  nth_error (numeric_values s) i = Some (Some v) ->
  exists n, nth i (series_cells s) NA = Number n /\ number_value n = v.
Proof.
  destruct s as [l|l|l|l]; simpl; try discriminate; intros _ H.
  - unfold int_values in H. rewrite nth_error_map in H.
    destruct (nth_error l i) as [z|] eqn:E; [|discriminate].
    simpl in H. inversion H. exists (Int z). split; [|reflexivity].
    apply (nth_error_nth _ _ NA). rewrite nth_error_map, E. reflexivity.
  - exists (Float v). split; [|reflexivity].
    apply (nth_error_nth _ _ NA). rewrite nth_error_map, H. reflexivity.
Qed.

(** Lines 349-358: when the column of an insight is numeric and holds a
    value, and the title summaries are texts, the box names the title of a
    row whose value no other row exceeds, with that value. *)
Theorem insight_shows_largest {pandas : Pandas}
  (df : DataFrame) (name : string) (text : string -> number -> string)
  (s : Series) (titles : list string) :
  lookup name df = Some s ->
  is_numeric s = true ->
  lookup "post title (first sentence)" df = Some (ObjectSeries (map Text titles)) ->
  count_valid (numeric_values s) <> 0 ->
  exists i n,
    insight df name text = ([Info (text (nth i titles "") n)], Ret tt)
    /\ nth i (series_cells s) NA = Number n
    /\ (forall j w, nth_error (numeric_values s) j = Some (Some w) ->
                    (w <= number_value n)%Q).
Proof.
  intros Hl Hn Ht Hc. unfold insight. rewrite Hl.
  assert (Hlen : series_len s <> 0).
  { rewrite <- (numeric_values_length s Hn). unfold count_valid in Hc.
    pose proof (filter_length_le notna (numeric_values s)). lia. }
  apply Nat.eqb_neq in Hlen. rewrite Hlen.
  assert (Hidx : exists i v,
            idxmax s = Ret i
            /\ nth_error (numeric_values s) i = Some (Some v)
            /\ forall j w, nth_error (numeric_values s) j = Some (Some w) ->
                           (w <= v)%Q).
  { rewrite <- (valid_positions_length (numeric_values s) 0) in Hc.
    unfold idxmax. rewrite (order_values_numeric s Hn).
    destruct (valid_positions 0 (numeric_values s)) as [|first rest] eqn:E;
      [contradiction|].
    destruct (argmax_from_largest first rest) as [v [Hin Hmax]].
    exists (argmax_from first rest), v.
    split; [destruct s; try discriminate; reflexivity|].
    rewrite <- E in Hin, Hmax. split.
    - apply valid_positions_In in Hin. rewrite Nat.sub_0_r in Hin. tauto.
    - intros j w Hj. apply (Hmax (j, w)). apply valid_positions_In.
      rewrite Nat.sub_0_r. split; [lia | exact Hj]. }
  destruct Hidx as [i [v [Hi [Hv Hmax]]]].
  destruct (cell_of_value s i v Hn Hv) as [n [Hcell Hval]].
  exists i, n. split; [|split; [exact Hcell|]].
  - unfold ui_bind, lift, cell_at, getitem. cbn [fst snd].
    rewrite Hi, Ht, Hl. cbn [bind]. rewrite Hcell. cbn [cell_number bind fst snd app].
    assert (E : cell_csv (nth i (series_cells (ObjectSeries (map Text titles))) NA)
                = nth i titles "").
    { cbn [series_cells]. clear. revert i.
      induction titles as [|t r IH]; intros [|i]; simpl; auto. }
    rewrite E. reflexivity.
  - intros j w Hj. rewrite Hval. exact (Hmax j w Hj).
Qed.

Lemma insight_shows_largest_witness :
  insight (pandas := example_pandas) four_posts "engagement rate" best_post_text
  = ([Info (best_post_text "B" (Float (9 # 10)))], Ret tt).
Proof.
  destruct (insight_shows_largest (pandas := example_pandas)
              four_posts "engagement rate" best_post_text
              (Float64Series
                 [Some (5 # 10); Some (9 # 10); Some (2 # 10); Some (7 # 10)]%Q)
              ["A"; "B"; "C"; "D"]
              eq_refl eq_refl eq_refl ltac:(vm_compute; discriminate))
    as [i [n [E _]]].
  reflexivity.
Defined.

(** Lines 349-358: when the column of an insight is numeric, has rows and
    holds no value at all, the run stops there with an exception and shows
    no box. *)
Theorem insight_raises_on_all_missing {pandas : Pandas}
  (df : DataFrame) (name : string) (text : string -> number -> string)
  (s : Series) :
  lookup name df = Some s ->
  is_numeric s = true ->
  series_len s <> 0 ->
  all_missing s ->
  exists e, insight df name text = ([], Raise e).
Proof.
  intros Hl Hn Hlen Hall. unfold insight. rewrite Hl.
  apply Nat.eqb_neq in Hlen. rewrite Hlen.
  assert (E : valid_positions 0 (numeric_values s) = []).
  { apply length_zero_iff_nil.
    rewrite valid_positions_length, count_valid_present,
      (present_all_missing s Hall). reflexivity. }
  unfold idxmax. rewrite (order_values_numeric s Hn), E.
  destruct s; try discriminate; eexists; reflexivity.
Qed.

Lemma insight_raises_on_all_missing_witness :
  exists e,
    insight (pandas := example_pandas) posts_without_rates "engagement rate"
      best_post_text
    = ([], Raise e).
Proof.
  apply (insight_raises_on_all_missing (pandas := example_pandas)
           posts_without_rates "engagement rate" best_post_text
           (Float64Series [None; None; None])).
  - reflexivity.
  - reflexivity.
  - discriminate.
  - repeat constructor.
Defined.

(** ** Columns of the displayed table *)

Lemma select_labels (df : DataFrame) (names : list string) (d : DataFrame) :
  select df names = Ret d -> map fst d = names.
Proof.
  unfold select. revert d. induction names as [|n r IH]; intros d; simpl.
  - intros E. inversion E. reflexivity.
  - unfold getitem at 1. destruct (lookup n df); [cbn [bind] | discriminate].
    destruct (mapM (fun n0 => s0 <- getitem df n0 ;; Ret (n0, s0)) r)
      as [d'|]; [cbn [bind] | discriminate].
    intros E. inversion E. simpl. f_equal. now apply IH.
Qed.

Lemma format_if_present_labels (name : string) (f : Series -> py Series)
  (d d' : DataFrame) :
  format_if_present name f d = Ret d' -> map fst d' = map fst d.
Proof.
  unfold format_if_present. destruct (lookup name d) as [s|] eqn:Hl.
  - destruct (f s); [cbn [bind] | discriminate].
    intros E. inversion E. rewrite labels_setitem. unfold has_column.
    now rewrite Hl.
  - intros E. now inversion E.
Qed.

Lemma available_columns_known (df : DataFrame) (name : string) :
  In name (available_columns df) ->
  In name (display_columns ++ ["created date"; "post type"]).
Proof.
  unfold available_columns.
  set (cols := filter (fun c => has_column c df) display_columns).
  assert (Hc : In name cols -> In name display_columns).
  { unfold cols. intros H. apply filter_In in H. tauto. }
  destruct (has_column "post type" df); destruct (has_column "created date" df);
    rewrite ?in_app_iff, ?insert_at_In; simpl; intuition auto.
Qed.

(** Lines 290-318: the displayed table has the columns of the display
    list that the table has, with the date column put second and the post
    type put last when the table has them; formatting changes no label, and
    the full post title is never displayed. *)
Theorem display_columns_order (df display : DataFrame) :
  format_display df = Ret display ->
  map fst display = available_columns df
  /\ ~ In "post title" (map fst display)
  /\ (forall name, In name (map fst display) -> has_column name df = true).
Proof.
  unfold format_display. intros H.
  apply bind_ret_inv in H. destruct H as [d0 [H0 H]].
  apply bind_ret_inv in H. destruct H as [d1 [H1 H]].
  apply bind_ret_inv in H. destruct H as [d2 [H2 H3]].
  assert (L : map fst display = available_columns df).
  { rewrite (format_if_present_labels _ _ _ _ H3),
      (format_if_present_labels _ _ _ _ H2),
      (format_if_present_labels _ _ _ _ H1).
    exact (select_labels _ _ _ H0). }
  split; [exact L|]. rewrite L. split.
  - intros Hin. apply available_columns_known in Hin. simpl in Hin.
    repeat (destruct Hin as [Hin | Hin]; [discriminate Hin|]). exact Hin.
  - apply available_columns_present.
Qed.

Lemma display_columns_order_witness :
  exists display,
    format_display
      [ ("post title", ObjectSeries [Text "Hello. World. More."]);
        ("post type", ObjectSeries [Text "Organic"]);
        ("engagement rate", Float64Series [Some (1 # 2)]%Q);
        ("created date", DatetimeSeries [Some 0%Z]);
        ("post title (first sentence)", ObjectSeries [Text "Hello. World"]) ]
    = Ret display
    /\ map fst display
       = ["post title (first sentence)"; "created date"; "engagement rate";
          "post type"].
Proof.
  match goal with
  | |- exists display, format_display ?t = Ret display /\ _ =>
      assert (E : exists display, format_display t = Ret display)
        by (eexists; reflexivity)
  end.
  destruct E as [display E]. exists display. split; [exact E|].
  rewrite (proj1 (display_columns_order _ _ E)). reflexivity.
Defined.
